(** * KeywordResearchTool: a shallow embedding of [app.py]

    The Flask application has three layers that matter here:
    - [generate_demo_data], the synthetic series generator;
    - [get_trends_data], the provider query with its three candidate
      windows and the synthetic fallback;
    - the handlers [index] and [analyze], with the process-wide
      [last_request_time] used for rate limiting.

    Python code is embedded in a state-and-exception monad.  The state is
    the module global [last_request_time] together with the trace of
    every call made to the outside world (provider, clock, random number
    generator, sleep, file system, plotting).  What the outside world
    answers is given by an environment of oracles which see the whole
    trace so far, so a provider, clock or generator may answer
    differently on every call.  Writes to standard output ([print]) are
    not modelled. *)

From Stdlib Require Import ZArith Lia Ascii String.
From stdpp Require Import gmap strings list fin_maps.

Local Open Scope string_scope.
Local Open Scope list_scope.
Local Open Scope Z_scope.

(** ** Python numbers used as time stamps

    [time.time()] is a float and [last_request_time] starts as the
    integer [0].  The handlers only subtract and compare, so the number
    type is kept abstract: whatever the arithmetic is, the model uses
    the same expression as the source. *)

Class PyNumber (T : Type) := {
  of_int : Z -> T;
  num_sub : T -> T -> T;
  num_lt : T -> T -> bool;
  (** if [x < y] then [y - x] is not negative *)
  num_sub_lt : forall x y, num_lt x y = true -> num_lt (num_sub y x) (of_int 0) = false
}.

(** ** Exceptions and results *)

Inductive exn := Exn (kind msg : string).

Definition str_exn (e : exn) : string :=
  match e with Exn _ msg => msg end.

Inductive result (A : Type) :=
| Ok (a : A)
| Raise (e : exn).
Arguments Ok {A} a.
Arguments Raise {A} e.

(** ** Data frames

    A column is either a column of time stamps (microseconds, as
    [datetime] counts them) or a numeric column in which [None] stands
    for NaN.  A frame has an index, which may carry a name, and a
    dictionary of named columns. *)

Inductive column :=
| Dates (ts : list Z)
| Numbers (vs : list (option Z)).

Definition col_len (c : column) : nat :=
  match c with
  | Dates ts => length ts
  | Numbers vs => length vs
  end.

Record frame := Frame {
  index_name : option string;
  df_index : column;
  columns : gmap string column
}.

(** [pd.RangeIndex(n)], the default index of a new frame. *)
Definition range_index (n : nat) : column :=
  Numbers ((fun i => Some (Z.of_nat i)) <$> seq 0 n).

(** [pd.DataFrame(d)] for a dictionary of columns: all columns must have
    the same length. *)
Definition DataFrame (d : gmap string column) : result frame :=
  match map_to_list d with
  | [] => Ok (Frame None (range_index 0) d)
  | (_, c) :: _ =>
      let n := col_len c in
      if decide (map_Forall (fun _ c' => col_len c' = n) d)
      then Ok (Frame None (range_index n) d)
      else Raise (Exn "ValueError" "All arrays must be of the same length")
  end.

(** [df.set_index(name, inplace=True)] *)
Definition set_index (name : string) (df : frame) : result frame :=
  match columns df !! name with
  | Some c => Ok (Frame (Some name) c (delete name (columns df)))
  | None => Raise (Exn "KeyError" name)
  end.

(** [df.empty]: some axis has length zero. *)
Definition empty (df : frame) : bool :=
  bool_decide (col_len (df_index df) = 0%nat) || bool_decide (columns df = ∅).

(** [kw in df.columns] *)
Definition in_columns (kw : string) (df : frame) : bool :=
  bool_decide (is_Some (columns df !! kw)).

(** [df[kw]] *)
Definition getitem (df : frame) (kw : string) : result column :=
  match columns df !! kw with
  | Some c => Ok c
  | None => Raise (Exn "KeyError" kw)
  end.

(** The exact sum of the entries that are not NaN. *)
Definition sum_skipna (vs : list (option Z)) : Z :=
  foldr (fun v acc => default 0 v + acc) 0 vs.

(** The sum of the absolute values of the entries that are not NaN. *)
Definition abs_sum (vs : list (option Z)) : Z :=
  foldr (fun v acc => Z.abs (default 0 v) + acc) 0 vs.

(** No entry is NaN.  A numeric column without NaN is an int64 column
    (the provider's interest values, the generator's values); a numeric
    column with NaN is a float64 column. *)
Definition notna (vs : list (option Z)) : bool :=
  forallb (fun v => match v with Some _ => true | None => false end) vs.

(** Arithmetic on int64 wraps around. *)
Definition int64_wrap (z : Z) : Z := (z + 2 ^ 63) mod 2 ^ 64 - 2 ^ 63.

(** [series.sum()].  An int64 column is summed with wrap-around.  In a
    float64 column NaN is skipped and the total is exact as long as no
    partial sum can leave the integers that float64 holds exactly
    (absolute values summing to at most 2^53); past that the rounded
    total is what [fsum] says numpy computes.  Time stamps cannot be
    summed. *)
Definition col_sum (fsum : list (option Z) -> Z) (c : column) : result Z :=
  match c with
  | Numbers vs =>
      if notna vs then Ok (int64_wrap (sum_skipna vs))
      else if abs_sum vs <=? 2 ^ 53 then Ok (sum_skipna vs)
      else Ok (fsum vs)
  | Dates _ => Raise (Exn "TypeError" "datetime64 type does not support sum operations")
  end.

(** ** Dates *)

Definition microseconds_per_day : Z := 86400 * 1000000.

(** [timedelta(days=n)] *)
Definition timedelta_days (n : Z) : Z := n * microseconds_per_day.

(** [pd.date_range(start=s, end=e, freq='D')]: [s], [s] + 1 day, ... as
    long as the point is not after [e]. *)
Definition date_range (s e : Z) : list Z :=
  if e <? s then []
  else (fun k => s + Z.of_nat k * microseconds_per_day)
         <$> seq 0 (S (Z.to_nat ((e - s) / microseconds_per_day))).

(** ** Strings

    A [string] holds the UTF-8 encoding of a Python [str].  The
    characters of a [str] are code points; [decode] reads them off the
    bytes and [encode] writes them back. *)

(** The code points [str.isspace] accepts, which are those
    [str.strip()] removes. *)
Definition isspace (c : N) : bool :=
  ((9 <=? c) && (c <=? 13) || (28 <=? c) && (c <=? 32)
   || (c =? 0x85) || (c =? 0xA0) || (c =? 0x1680)
   || (0x2000 <=? c) && (c <=? 0x200A)
   || (c =? 0x2028) || (c =? 0x2029) || (c =? 0x202F)
   || (c =? 0x205F) || (c =? 0x3000))%N.

(** The low six bits of a continuation byte. *)
Definition low6 (b : ascii) : N := (N_of_ascii b mod 64)%N.

Fixpoint decode (s : string) : list N :=
  match s with
  | EmptyString => []
  | String b0 rest =>
      let n0 := N_of_ascii b0 in
      if (n0 <? 0x80)%N then n0 :: decode rest
      else if (n0 <? 0xC0)%N then 0xFFFD%N :: decode rest
      else if (n0 <? 0xE0)%N then
        match rest with
        | String b1 r1 => ((n0 mod 32) * 64 + low6 b1)%N :: decode r1
        | _ => 0xFFFD%N :: decode rest
        end
      else if (n0 <? 0xF0)%N then
        match rest with
        | String b1 (String b2 r2) =>
            ((n0 mod 16) * 4096 + low6 b1 * 64 + low6 b2)%N :: decode r2
        | _ => 0xFFFD%N :: decode rest
        end
      else
        match rest with
        | String b1 (String b2 (String b3 r3)) =>
            ((n0 mod 8) * 262144 + low6 b1 * 4096 + low6 b2 * 64 + low6 b3)%N
              :: decode r3
        | _ => 0xFFFD%N :: decode rest
        end
  end.

Definition byte (n : N) : string := String (ascii_of_N n) EmptyString.

Definition encode_point (c : N) : string :=
  if (c <? 0x80)%N then byte c
  else if (c <? 0x800)%N then
    byte (192 + c / 64) +:+ byte (128 + c mod 64)
  else if (c <? 0x10000)%N then
    byte (224 + c / 4096) +:+ byte (128 + (c / 64) mod 64)
    +:+ byte (128 + c mod 64)
  else
    byte (240 + c / 262144) +:+ byte (128 + (c / 4096) mod 64)
    +:+ byte (128 + (c / 64) mod 64) +:+ byte (128 + c mod 64).

Fixpoint encode (cs : list N) : string :=
  match cs with
  | [] => EmptyString
  | c :: rest => encode_point c +:+ encode rest
  end.

(** The characters left after the leading white space. *)
Fixpoint lstrip_points (cs : list N) : list N :=
  match cs with
  | c :: rest => if isspace c then lstrip_points rest else cs
  | [] => []
  end.

(** The characters left after the trailing white space. *)
Definition rstrip_points (cs : list N) : list N :=
  rev (lstrip_points (rev cs)).

(** [s.strip()] *)
Definition strip (s : string) : string :=
  encode (rstrip_points (lstrip_points (decode s))).

Section App.

Context {T : Type} {num : PyNumber T}.

(** ** The outside world *)

Inductive event :=
| EvTrendReq
| EvBuildPayload (kw timeframe : string)
| EvInterestOverTime
| EvDatetimeNow
| EvRandint (lo hi : Z)
| EvTime
| EvSleep (seconds : T)
| EvMakedirs (path : string)
| EvPlot (title : string)
| EvSavefig (path : string)
| EvClose.

(** Every oracle is asked with the trace that ends in the call it
    answers. *)
Record env := Env {
  TrendReq_raises : list event -> option exn;
  build_payload_raises : list event -> option exn;
  interest_over_time_returns : list event -> result (option frame);
  datetime_now_returns : list event -> Z;
  getrandbits : list event -> Z;
  time_returns : list event -> T;
  makedirs_raises : list event -> option exn;
  plot_raises : list event -> option exn;
  savefig_raises : list event -> option exn;
  (** the rounded total numpy computes for a float64 column whose
      exact total float64 may not hold (see [col_sum]) *)
  float64_sum : list (option Z) -> Z;
  (** [str(d.date())] for a time stamp of the index *)
  date_str : Z -> string;
  (** the table of the page handler: [reset_index], [strftime] and
      [to_html] on the last rows of the frame *)
  table_html : frame -> string -> result string
}.

Record world := World {
  last_request_time : T;
  trace : list event
}.

(** The module starts with [last_request_time = 0] and nothing done. *)
Definition initial_world : world := World (of_int 0) [].

(** ** The monad *)

Definition M (A : Type) : Type := world -> result A * world.

Definition ret {A} (a : A) : M A := fun w => (Ok a, w).

Definition raise {A} (e : exn) : M A := fun w => (Raise e, w).

Definition bind {A B} (m : M A) (k : A -> M B) : M B :=
  fun w =>
    match m w with
    | (Ok a, w') => k a w'
    | (Raise e, w') => (Raise e, w')
    end.

(** [try: m except Exception as e: h e] *)
Definition try_except {A} (m : M A) (h : exn -> M A) : M A :=
  fun w =>
    match m w with
    | (Ok a, w') => (Ok a, w')
    | (Raise e, w') => h e w'
    end.

Definition lift {A} (r : result A) : M A := fun w => (r, w).

Definition emit (e : event) : M unit :=
  fun w => (Ok tt, World (last_request_time w) (trace w ++ [e])).

(** Ask an oracle about the trace so far. *)
Definition ask {A} (oracle : list event -> A) : M A :=
  fun w => (Ok (oracle (trace w)), w).

Definition may_raise (oracle : list event -> option exn) : M unit :=
  fun w =>
    match oracle (trace w) with
    | Some e => (Raise e, w)
    | None => (Ok tt, w)
    end.

Definition get_last_request_time : M T :=
  fun w => (Ok (last_request_time w), w).

Definition set_last_request_time (t : T) : M unit :=
  fun w => (Ok tt, World t (trace w)).

End App.

Arguments event : clear implicits.
Arguments env : clear implicits.
Arguments world : clear implicits.
Arguments M : clear implicits.

Declare Scope py_scope.
Delimit Scope py_scope with py.
Notation "x <- m ;; k" := (bind m (fun x => k))
  (at level 100, m at next level, right associativity) : py_scope.
Notation "m ;;; k" := (bind m (fun _ => k))
  (at level 100, right associativity) : py_scope.

Local Open Scope py_scope.

Section Program.

Context {T : Type} {num : PyNumber T}.
Variable E : env T.

Local Abbreviation M := (M T).

(** ** Calls to the outside world *)

(** [TrendReq(hl='en-US', tz=360, timeout=10)] *)
Definition TrendReq : M unit :=
  emit EvTrendReq ;;; may_raise (TrendReq_raises E).

(** [pytrend.build_payload([kw], timeframe=tf)] *)
Definition build_payload (kw tf : string) : M unit :=
  emit (EvBuildPayload kw tf) ;;; may_raise (build_payload_raises E).

(** [pytrend.interest_over_time()]; the answer may be [None]. *)
Definition interest_over_time : M (option frame) :=
  emit EvInterestOverTime ;;;
  r <- ask (interest_over_time_returns E) ;;
  lift r.

(** [datetime.now()] *)
Definition datetime_now : M Z :=
  emit EvDatetimeNow ;;; ask (datetime_now_returns E).

(** [random.randint(lo, hi)]: [lo] plus a number below [hi - lo + 1]. *)
Definition randint (lo hi : Z) : M Z :=
  if hi <? lo then raise (Exn "ValueError" "empty range for randrange()")
  else
    emit (EvRandint lo hi) ;;;
    bits <- ask (getrandbits E) ;;
    ret (lo + bits mod (hi - lo + 1)).

(** [time.time()] *)
Definition time_time : M T :=
  emit EvTime ;;; ask (time_returns E).

(** [time.sleep(seconds)] *)
Definition time_sleep (seconds : T) : M unit :=
  if num_lt seconds (of_int 0)
  then raise (Exn "ValueError" "sleep length must be non-negative")
  else emit (EvSleep seconds).

(** [os.makedirs(path, exist_ok=True)] *)
Definition os_makedirs (path : string) : M unit :=
  emit (EvMakedirs path) ;;; may_raise (makedirs_raises E).

(** [plt.figure] up to [plt.tight_layout]: the chart is drawn in memory. *)
Definition plt_plot (title : string) : M unit :=
  emit (EvPlot title) ;;; may_raise (plot_raises E).

(** [plt.savefig(path, ...)] *)
Definition plt_savefig (path : string) : M unit :=
  emit (EvSavefig path) ;;; may_raise (savefig_raises E).

(** [plt.close()] *)
Definition plt_close : M unit := emit EvClose.

(** [l[i]] *)
Definition list_getitem {A} (l : list A) (i : nat) : M A :=
  match l !! i with
  | Some x => ret x
  | None => raise (Exn "IndexError" "list index out of range")
  end.

(** ** [generate_demo_data] *)

Definition base_trend : list Z :=
  [50; 55; 60; 65; 70; 75; 80; 85; 90; 85; 80; 75; 70; 65; 60].

(** The loop [for i in range(len(dates))], one iteration per element of
    [idxs], appending to [values]. *)
Fixpoint demo_values (idxs : list nat) (values : list Z) : M (list Z) :=
  match idxs with
  | [] => ret values
  | i :: rest =>
      pattern_value <- list_getitem base_trend (i mod length base_trend) ;;
      random_variation <- randint (-10) 10 ;;
      let value := Z.max 10 (pattern_value + random_variation) in
      demo_values rest (values ++ [value])
  end.

Definition generate_demo_data (keyword : string) : M frame :=
  end_date <- datetime_now ;;
  let start_date := end_date - timedelta_days 90 in
  let dates := date_range start_date end_date in
  values <- demo_values (seq 0 (length dates)) [] ;;
  data <- lift (DataFrame (<[keyword := Numbers (Some <$> values)]>
                            (<["date" := Dates dates]> ∅))) ;;
  data <- lift (set_index "date" data) ;;
  ret data.

(** ** [get_trends_data] *)

Definition timeframes : list string := ["now 7-d"; "today 1-m"; "today 3-m"].

Definition demo_label : string := "demo (last 3 months)".

(** [data.empty] on what the provider returned: [None] has no such
    attribute. *)
Definition as_frame (data : option frame) : M frame :=
  match data with
  | Some df => ret df
  | None => raise (Exn "AttributeError" "'NoneType' object has no attribute 'empty'")
  end.

(** The body of the loop over the time frames: [Some] stands for the
    [return] inside the loop, [None] for going on to the next time
    frame. *)
Definition attempt (keyword timeframe : string) : M (option (frame * string * bool)) :=
  try_except
    (build_payload keyword timeframe ;;;
     data <- interest_over_time ;;
     df <- as_frame data ;;
     if negb (empty df) && in_columns keyword df then
       col <- lift (getitem df keyword) ;;
       total <- lift (col_sum (float64_sum E) col) ;;
       if 0 <? total then ret (Some (df, timeframe, true)) else ret None
     else ret None)
    (fun _ => ret None).

Fixpoint try_timeframes (keyword : string) (tfs : list string)
  : M (option (frame * string * bool)) :=
  match tfs with
  | [] => ret None
  | timeframe :: rest =>
      r <- attempt keyword timeframe ;;
      match r with
      | Some found => ret (Some found)
      | None => try_timeframes keyword rest
      end
  end.

Definition demo_fallback (keyword : string) : M (frame * string * bool) :=
  data <- generate_demo_data keyword ;;
  ret (data, demo_label, false).

Definition get_trends_data (keyword : string) : M (frame * string * bool) :=
  try_except
    (TrendReq ;;;
     r <- try_timeframes keyword timeframes ;;
     match r with
     | Some found => ret found
     | None => demo_fallback keyword
     end)
    (fun _ => demo_fallback keyword).

(** ** The handlers *)

Record request := Request {
  method : string;
  form : gmap string string
}.

(** [request.form.get(name, '')] *)
Definition form_get (req : request) (name : string) : string :=
  default "" (form req !! name).

Definition dquote : string := String (ascii_of_nat 34) EmptyString.

Definition real_title (keyword : string) : string :=
  "Google Trends: " +:+ dquote +:+ keyword +:+ dquote.

Definition demo_title (keyword : string) : string :=
  "Demo Trend Data: " +:+ dquote +:+ keyword +:+ dquote.

(** [os.makedirs] up to [plt.close()], the same lines in both handlers. *)
Definition save_chart (data : frame) (keyword : string) (is_real_data : bool) : M unit :=
  os_makedirs "static" ;;;
  _ <- lift (getitem data keyword) ;;
  plt_plot (if is_real_data then real_title keyword else demo_title keyword) ;;;
  plt_savefig "static/chart.png" ;;;
  plt_close.

(** [data.tail(n)] *)
Definition col_tail (n : nat) (c : column) : column :=
  match c with
  | Dates ts => Dates (drop (length ts - n) ts)
  | Numbers vs => Numbers (drop (length vs - n) vs)
  end.

Definition tail (n : nat) (df : frame) : frame :=
  Frame (index_name df) (col_tail n (df_index df)) (col_tail n <$> columns df).

(** What [render_template("index.html", results=..., error=...)] is given. *)
Record page := Page {
  results : option string;
  error : option string
}.

Definition empty_keyword_message : string := "Please enter a keyword to search.".

Definition nl : string := String (ascii_of_nat 10) EmptyString.

(** The notice put before the table for synthetic data: the
    triple-quoted literal of the source, line by line. *)
Definition demo_notice : string :=
  nl +:+ "                        <div class=" +:+ dquote +:+ "info-box" +:+ dquote +:+ " style=" +:+ dquote +:+ "margin-bottom: 1rem;" +:+ dquote +:+ ">"
  +:+ nl +:+ "                            <h3>📊 Demo Data</h3>"
  +:+ nl +:+ "                            <p style=" +:+ dquote +:+ "color: #4361ee; font-size: 0.9rem; margin: 0;" +:+ dquote +:+ ">"
  +:+ nl +:+ "                                <strong>Note:</strong> Showing demo data as Google Trends is currently unavailable. "
  +:+ nl +:+ "                                Real data will be shown when the service recovers."
  +:+ nl +:+ "                            </p>"
  +:+ nl +:+ "                        </div>"
  +:+ nl +:+ "                        ".

Definition no_data_message (keyword : string) : string :=
  "No trend data found for '" +:+ keyword +:+ "'.<br><br>"
  +:+ "<strong>Possible reasons:</strong><br>"
  +:+ "• Keyword is too niche or has no search volume<br>"
  +:+ "• Google Trends API is temporarily unavailable<br>"
  +:+ "• Try more common keywords like 'python', 'music', or 'travel'<br>"
  +:+ "• Wait 10+ seconds between searches".

Definition processing_error_message (e : exn) : string :=
  "Error processing your request: " +:+ str_exn e
  +:+ "<br>Please try again in 30 seconds.".

(** [index], the handler of [/]. *)
Definition index (req : request) : M page :=
  if bool_decide (method req = "POST") then
    let keyword := strip (form_get req "keyword") in
    if bool_decide (keyword = "") then
      ret (Page None (Some empty_keyword_message))
    else
      try_except
        (current_time <- time_time ;;
         last <- get_last_request_time ;;
         (if num_lt (num_sub current_time last) (of_int 10) then
            let wait_time := num_sub (of_int 10) (num_sub current_time last) in
            time_sleep wait_time
          else ret tt) ;;;
         fetched <- get_trends_data keyword ;;
         let '(data, timeframe_used, is_real_data) := fetched in
         let is_demo_data := negb is_real_data in
         rendered <-
           (if negb (empty data) && in_columns keyword data then
              save_chart data keyword is_real_data ;;;
              table <- lift (table_html E (tail 10 data) keyword) ;;
              ret (Page (Some (if is_demo_data then demo_notice +:+ table else table)) None)
            else ret (Page None (Some (no_data_message keyword)))) ;;
         now <- time_time ;;
         set_last_request_time now ;;;
         ret rendered)
        (fun e => ret (Page None (Some (processing_error_message e))))
  else ret (Page None None).

(** The body of a JSON response. *)
Inductive json :=
| JsonResult (dates : list string) (values : list Z)
             (timeframe_used keyword : string) (is_demo_data : bool)
| JsonError (error : string).

(** [[str(d.date()) for d in data.index]] *)
Definition index_dates (df : frame) : result (list string) :=
  match df_index df with
  | Dates ts => Ok (date_str E <$> ts)
  | Numbers _ => Raise (Exn "AttributeError" "'int' object has no attribute 'date'")
  end.

(** [col.fillna(0).astype(int).tolist()]; a column of time stamps turns
    into the numbers that stand for them (no frame that
    [get_trends_data] returns has one under the keyword). *)
Definition int_values (c : column) : list Z :=
  match c with
  | Numbers vs => default 0 <$> vs
  | Dates ts => ts
  end.

Definition missing_keyword_message : string := "Please enter a keyword".

Definition not_found_message (keyword : string) : string :=
  "No trend data found for " +:+ dquote +:+ keyword +:+ dquote
  +:+ ". Try more common keywords like " +:+ dquote +:+ "python" +:+ dquote
  +:+ ", " +:+ dquote +:+ "music" +:+ dquote
  +:+ ", or " +:+ dquote +:+ "travel" +:+ dquote +:+ ".".

Definition server_error_message (e : exn) : string :=
  "Server error: " +:+ str_exn e +:+ ". Please try again later.".

(** [analyze], the handler of [/analyze]: the body and the status. *)
Definition analyze (req : request) : M (json * Z) :=
  try_except
    (let keyword := strip (form_get req "keyword") in
     if bool_decide (keyword = "") then
       ret (JsonError missing_keyword_message, 400)
     else
       current_time <- time_time ;;
       last <- get_last_request_time ;;
       (if num_lt (num_sub current_time last) (of_int 10) then
          let wait_time := num_sub (of_int 10) (num_sub current_time last) in
          time_sleep wait_time
        else ret tt) ;;;
       fetched <- get_trends_data keyword ;;
       let '(data, timeframe_used, is_real_data) := fetched in
       if negb (empty data) && in_columns keyword data then
         save_chart data keyword is_real_data ;;;
         dates <- lift (index_dates data) ;;
         col <- lift (getitem data keyword) ;;
         let result := JsonResult dates (int_values col) timeframe_used keyword
                                  (negb is_real_data) in
         now <- time_time ;;
         set_last_request_time now ;;;
         ret (result, 200)
       else
         ret (JsonError (not_found_message keyword), 404))
    (fun e => ret (JsonError (server_error_message e), 500)).

End Program.

(** ** What the claims speak about *)

Section Specification.

Context {T : Type} {num : PyNumber T}.
Variable E : env T.

(** The random variations of [n] successive calls of
    [random.randint(-10, 10)] made from the trace [h]. *)
Fixpoint demo_draws (n : nat) (h : list (event T)) : list Z :=
  match n with
  | O => []
  | S n' =>
      let h' := h ++ [EvRandint (-10) 10] in
      (-10 + getrandbits E h' mod 21) :: demo_draws n' h'
  end.

(** The base pattern, cycled. *)
Definition pattern_at (i : nat) : Z := nth (i mod 15) base_trend 0.

(** The value of day [i] for the random variation [r]. *)
Definition demo_value (i : nat) (r : Z) : Z := Z.max 10 (pattern_at i + r).

(** What [generate_demo_data] computes when it is called at trace [h]:
    the clock reading, the dates, the values and the trace it leaves. *)
Definition demo_now (h : list (event T)) : Z :=
  datetime_now_returns E (h ++ [EvDatetimeNow]).

Definition demo_dates (h : list (event T)) : list Z :=
  date_range (demo_now h - timedelta_days 90) (demo_now h).

Definition demo_series (h : list (event T)) : list Z :=
  zip_with demo_value (seq 0 (length (demo_dates h)))
           (demo_draws (length (demo_dates h)) (h ++ [EvDatetimeNow])).

Definition demo_trace (h : list (event T)) : list (event T) :=
  h ++ EvDatetimeNow :: replicate (length (demo_dates h)) (EvRandint (-10) 10).

(** The frame [generate_demo_data] returns when called at trace [h].
    The dictionary literal of the source has the key ['date'] and the
    key [keyword]: for the keyword ['date'] the values replace the dates,
    [set_index] moves them into the index, and no column is left. *)
Definition demo_data (keyword : string) (h : list (event T)) : frame :=
  if decide (keyword = "date")
  then Frame (Some "date") (Numbers (Some <$> demo_series h)) ∅
  else Frame (Some "date") (Dates (demo_dates h))
             {[keyword := Numbers (Some <$> demo_series h)]}.

(** Consecutive points are one day apart. *)
Definition daily (ds : list Z) : Prop :=
  forall i d d', ds !! i = Some d -> ds !! S i = Some d' ->
                 d' = d + microseconds_per_day.

(** *** The provider's candidates *)

(** What the provider answers when [keyword] is queried for [timeframe]
    at trace [h]: [build_payload] raises, or [interest_over_time] raises
    or returns. *)
Definition candidate_response (keyword timeframe : string) (h : list (event T))
  : result (option frame) :=
  let h1 := h ++ [EvBuildPayload keyword timeframe] in
  match build_payload_raises E h1 with
  | Some e => Raise e
  | None => interest_over_time_returns E (h1 ++ [EvInterestOverTime])
  end.

(** The trace after that query. *)
Definition candidate_trace (keyword timeframe : string) (h : list (event T))
  : list (event T) :=
  let h1 := h ++ [EvBuildPayload keyword timeframe] in
  match build_payload_raises E h1 with
  | Some _ => h1
  | None => h1 ++ [EvInterestOverTime]
  end.

(** A returned frame is accepted when it is non-empty, has the keyword's
    column, and the values of that column have a positive sum, the sum
    being the one [data[keyword].sum()] computes. *)
Definition accepted (keyword : string) (df : frame) : Prop :=
  col_len (df_index df) ≠ 0%nat /\ columns df ≠ ∅ /\
  exists col total,
    columns df !! keyword = Some col /\
    col_sum (float64_sum E) col = Ok total /\ 0 < total.

(** Every other answer is rejected: an exception, [None], an empty frame,
    a frame without the column, a sum that is not positive. *)
Definition rejected (keyword : string) (r : result (option frame)) : Prop :=
  forall df, r = Ok (Some df) -> ~ accepted keyword df.

(** The candidates [tfs], queried one after the other from trace [h],
    are all rejected. *)
Fixpoint all_rejected (keyword : string) (tfs : list string) (h : list (event T)) : Prop :=
  match tfs with
  | [] => True
  | tf :: rest =>
      rejected keyword (candidate_response keyword tf h) /\
      all_rejected keyword rest (candidate_trace keyword tf h)
  end.

(** The trace after the candidates [tfs] have been queried. *)
Fixpoint after_candidates (keyword : string) (tfs : list string) (h : list (event T))
  : list (event T) :=
  match tfs with
  | [] => h
  | tf :: rest => after_candidates keyword rest (candidate_trace keyword tf h)
  end.

(** *** The rate limiter *)

(** The time since the last request, as the handlers compute it from
    the clock reading they take first. *)
Definition elapsed (w : world T) : T :=
  num_sub (time_returns E (trace w ++ [EvTime])) (last_request_time w).

(** The sleep the handlers make, if any. *)
Definition wait_events (w : world T) : list (event T) :=
  if num_lt (elapsed w) (of_int 10)
  then [EvSleep (num_sub (of_int 10) (elapsed w))]
  else [].

(** The world in which the fetch starts. *)
Definition after_wait (w : world T) : world T :=
  World (last_request_time w) (trace w ++ EvTime :: wait_events w).

(** The world after [last_request_time = time.time()]. *)
Definition stamped (w : world T) : world T :=
  World (time_returns E (trace w ++ [EvTime])) (trace w ++ [EvTime]).


(** The post-fetch guard of both handlers. *)
Definition guard (keyword : string) (data : frame) : bool :=
  negb (empty data) && in_columns keyword data.

End Specification.

(** The [build_payload] calls of a trace, in order. *)
Definition payloads {T} (h : list (event T)) : list (string * string) :=
  omap (fun ev => match ev with
                  | EvBuildPayload kw tf => Some (kw, tf)
                  | _ => None
                  end) h.

(** A keyword with nothing but white space in it (or nothing at all). *)
Definition whitespace_only (s : string) : Prop :=
  Forall (fun c => isspace c = true) (decode s).

(** ** Concrete worlds

    Integers as seconds, a clock that ticks with every call, and four
    environments: the provider cannot be reached; the provider answers
    every query; the provider has data only for the window of one month;
    the provider cannot be reached and the chart cannot be saved. *)

#[global] Program Instance Z_number : PyNumber Z :=
  {| of_int := fun z => z; num_sub := Z.sub; num_lt := Z.ltb |}.
Next Obligation.
  intros x y H. apply Z.ltb_lt in H. apply Z.ltb_ge. lia.
Qed.

Definition clock (h : list (event Z)) : Z := 1000 + Z.of_nat (length h).

Definition sample_frame : frame :=
  Frame (Some "date")
        (Dates [0; microseconds_per_day; 2 * microseconds_per_day])
        (<["python" := Numbers [Some 40; None; Some 60]]>
           (<["isPartial" := Numbers [Some 0; Some 0; Some 1]]> ∅)).

Definition silent_frame : frame :=
  Frame (Some "date")
        (Dates [0; microseconds_per_day; 2 * microseconds_per_day])
        (<["python" := Numbers [Some 0; Some 0; Some 0]]> ∅).

Definition offline : env Z :=
  Env (fun _ => Some (Exn "ConnectionError" "no route to host"))
      (fun _ => None)
      (fun _ => Ok None)
      (fun _ => 1700000000000000)
      (fun h => 7 * Z.of_nat (length h))
      clock
      (fun _ => None) (fun _ => None) (fun _ => None)
      sum_skipna
      (fun _ => "2023-11-14")
      (fun _ _ => Ok "<table></table>").

Definition online : env Z :=
  Env (fun _ => None)
      (fun _ => None)
      (fun _ => Ok (Some sample_frame))
      (fun _ => 1700000000000000)
      (fun h => 7 * Z.of_nat (length h))
      clock
      (fun _ => None) (fun _ => None) (fun _ => None)
      sum_skipna
      (fun _ => "2023-11-14")
      (fun _ _ => Ok "<table></table>").

Definition month_only : env Z :=
  Env (fun _ => None)
      (fun h => match last h with
                | Some (EvBuildPayload _ "now 7-d") =>
                    Some (Exn "ResponseError" "429")
                | _ => None
                end)
      (fun h => match last (payloads h) with
                | Some (_, "today 1-m") => Ok (Some sample_frame)
                | _ => Ok (Some silent_frame)
                end)
      (fun _ => 1700000000000000)
      (fun h => 7 * Z.of_nat (length h))
      clock
      (fun _ => None) (fun _ => None) (fun _ => None)
      sum_skipna
      (fun _ => "2023-11-14")
      (fun _ _ => Ok "<table></table>").

Definition broken_disk : env Z :=
  Env (fun _ => Some (Exn "ConnectionError" "no route to host"))
      (fun _ => None)
      (fun _ => Ok None)
      (fun _ => 1700000000000000)
      (fun h => 7 * Z.of_nat (length h))
      clock
      (fun _ => None) (fun _ => None)
      (fun _ => Some (Exn "OSError" "No space left on device"))
      sum_skipna
      (fun _ => "2023-11-14")
      (fun _ _ => Ok "<table></table>").

Definition post (keyword : string) : request :=
  Request "POST" (<["keyword" := keyword]> ∅).

(** A keyword of white space only: a space, a no-break space (U+00A0),
    an em space (U+2003) and a tab. *)
Definition blank : string := encode [32; 0xA0; 0x2003; 9]%N.

(** A keyword between a no-break space and an em space. *)
Definition padded (keyword : string) : string :=
  encode [0xA0]%N +:+ keyword +:+ encode [0x2003]%N.

(** ** The health check and what a trace shows *)

Section Observations.

Context {T : Type} {num : PyNumber T}.
Variable E : env T.

(** The body of the health check's answer. *)
Record health := Health {
  status : string;
  message : string;
  timestamp : T
}.

(** [test_endpoint], the handler of [/test]. *)
Definition test_endpoint : M T health :=
  (now <- time_time E ;;
   ret (Health "success" "API is working correctly" now))%py.

(** The calls [get_trends_data] makes once the client exists: provider
    queries, and the clock and the random numbers of the generator. *)
Definition after_client_event (e : event T) : bool :=
  match e with
  | EvBuildPayload _ _ | EvInterestOverTime | EvDatetimeNow | EvRandint _ _ => true
  | _ => false
  end.

(** The calls of the chart block. *)
Definition chart_event (e : event T) : bool :=
  match e with
  | EvMakedirs _ | EvPlot _ | EvSavefig _ | EvClose => true
  | _ => false
  end.

(** The sleeps of a trace, in order. *)
Definition sleeps (h : list (event T)) : list T :=
  omap (fun ev => match ev with EvSleep d => Some d | _ => None end) h.

(** The paths [plt.savefig] was called with, in order. *)
Definition savefigs (h : list (event T)) : list string :=
  omap (fun ev => match ev with EvSavefig path => Some path | _ => None end) h.

End Observations.

(** The seconds slept in a trace. *)
Definition slept (h : list (event Z)) : Z :=
  foldr (fun ev acc => match ev with EvSleep d => d + acc | _ => acc end) 0 h.

(** A clock that advances by one second with every call and by the
    length of every sleep; the provider cannot be reached. *)
Definition ticking : env Z :=
  Env (fun _ => Some (Exn "ConnectionError" "no route to host"))
      (fun _ => None)
      (fun _ => Ok None)
      (fun _ => 1700000000000000)
      (fun h => 7 * Z.of_nat (length h))
      (fun h => 1000 + slept h + Z.of_nat (length h))
      (fun _ => None) (fun _ => None) (fun _ => None)
      sum_skipna
      (fun _ => "2023-11-14")
      (fun _ _ => Ok "<table></table>").

(** * Properties *)

Section GeneratorFacts.

Context {T : Type} {num : PyNumber T}.
Variable E : env T.

Lemma base_trend_lookup (i : nat) :
  base_trend !! (i mod length base_trend)%nat = Some (pattern_at i).
Proof.
  unfold pattern_at. change (length base_trend) with 15%nat.
  destruct (lookup_lt_is_Some_2 base_trend (i mod 15)%nat) as [x Hx].
  - change (length base_trend) with 15%nat. apply Nat.mod_upper_bound. lia.
  - rewrite Hx. f_equal. symmetry. by apply nth_lookup_Some.
Qed.

Lemma pattern_at_bounds (i : nat) : 50 <= pattern_at i <= 90.
Proof.
  unfold pattern_at.
  assert (Hlt : (i mod 15 < 15)%nat) by (apply Nat.mod_upper_bound; lia).
  unfold base_trend.
  remember (i mod 15)%nat as k eqn:Hk. clear Hk.
  do 15 (destruct k as [|k]; [simpl; lia|]). lia.
Qed.

(** The loop appends one value per index and makes one [randint] call
    per index. *)
Lemma demo_values_run (idxs : list nat) :
  forall (values : list Z) (w : world T),
    demo_values E idxs values w =
    (Ok (values ++ zip_with demo_value idxs (demo_draws E (length idxs) (trace w))),
     World (last_request_time w)
           (trace w ++ replicate (length idxs) (EvRandint (-10) 10))).
Proof.
  induction idxs as [|i rest IH]; intros values w.
  - simpl. unfold ret. destruct w; simpl. by rewrite !app_nil_r.
  - cbn [demo_values]. unfold bind at 1. unfold list_getitem.
    rewrite base_trend_lookup. unfold ret at 1.
    unfold bind at 1, randint. change (10 <? -10) with false. cbv iota.
    unfold bind at 1, emit. unfold bind at 1, ask, ret at 1. cbn [trace last_request_time].
    rewrite IH. cbn [trace last_request_time length replicate demo_draws zip_with].
    rewrite <- !app_assoc. reflexivity.
Qed.

Lemma demo_draws_length (n : nat) : forall h, length (demo_draws E n h) = n.
Proof. induction n as [|n IH]; intros h; simpl; [done | by rewrite IH]. Qed.

Lemma demo_draws_bounds (n : nat) :
  forall h r, r ∈ demo_draws E n h -> -10 <= r <= 10.
Proof.
  induction n as [|n IH]; intros h r Hr; simpl in Hr.
  - by apply elem_of_nil in Hr.
  - apply elem_of_cons in Hr as [-> | Hr]; [| by eapply IH].
    pose proof (Z.mod_pos_bound (getrandbits E (h ++ [EvRandint (-10) 10])) 21).
    lia.
Qed.

Lemma date_range_90 (now : Z) :
  date_range (now - timedelta_days 90) now =
  (fun k => now - timedelta_days 90 + Z.of_nat k * microseconds_per_day) <$> seq 0 91.
Proof.
  unfold date_range, timedelta_days, microseconds_per_day.
  destruct (Z.ltb_spec now (now - 90 * (86400 * 1000000))) as [H|H]; [lia|].
  replace (now - (now - 90 * (86400 * 1000000))) with (90 * (86400 * 1000000)) by lia.
  rewrite Z.div_mul by lia. reflexivity.
Qed.

Lemma demo_dates_length (h : list (event T)) : length (demo_dates E h) = 91%nat.
Proof. unfold demo_dates. rewrite date_range_90. by rewrite length_fmap, length_seq. Qed.

Lemma demo_dates_lookup (h : list (event T)) (i : nat) :
  (i < 91)%nat ->
  demo_dates E h !! i =
  Some (demo_now E h - timedelta_days 90 + Z.of_nat i * microseconds_per_day).
Proof.
  intros Hi. unfold demo_dates. rewrite date_range_90.
  rewrite list_lookup_fmap, lookup_seq_lt by done. reflexivity.
Qed.

Lemma demo_series_length (h : list (event T)) : length (demo_series E h) = 91%nat.
Proof.
  unfold demo_series. rewrite length_zip_with, length_seq, demo_draws_length.
  rewrite demo_dates_length. lia.
Qed.

(** A dictionary whose columns all have [n] entries makes a frame. *)
Lemma DataFrame_uniform (d : gmap string column) (n : nat) :
  d ≠ ∅ ->
  map_Forall (fun _ c => col_len c = n) d ->
  DataFrame d = Ok (Frame None (range_index n) d).
Proof.
  intros Hne Hall. unfold DataFrame.
  destruct (map_to_list d) as [|[k c] l] eqn:Hl.
  - by apply map_to_list_empty_iff in Hl.
  - assert (Hc : d !! k = Some c).
    { apply elem_of_map_to_list. rewrite Hl. apply elem_of_cons. by left. }
    rewrite (Hall k c Hc). by rewrite decide_True.
Qed.

(** The frame built at the end of [generate_demo_data]. *)
Lemma demo_frame (keyword : string) (dates values : list Z) :
  length values = length dates ->
  match DataFrame (<[keyword := Numbers (Some <$> values)]>
                    (<["date" := Dates dates]> ∅)) with
  | Ok data => set_index "date" data
  | Raise e => Raise e
  end =
  Ok (if decide (keyword = "date")
      then Frame (Some "date") (Numbers (Some <$> values)) ∅
      else Frame (Some "date") (Dates dates) {[keyword := Numbers (Some <$> values)]}).
Proof.
  intros Hlen.
  rewrite (DataFrame_uniform _ (length dates)).
  - unfold set_index. cbn [columns]. destruct (decide (keyword = "date")) as [->|Hne].
    + rewrite lookup_insert_eq. do 2 f_equal.
    + rewrite lookup_insert_ne, lookup_insert_eq by done. do 2 f_equal.
      apply map_eq. intros k. rewrite lookup_delete.
      case_decide as Hk; [subst k; by rewrite lookup_singleton_ne|].
      rewrite lookup_insert. case_decide; [subst k; by rewrite lookup_singleton_eq|].
      by rewrite lookup_insert_ne, lookup_singleton_ne.
  - intros Hempty. apply (f_equal (fun m => m !! keyword)) in Hempty.
    by rewrite lookup_insert_eq, lookup_empty in Hempty.
  - intros k c. rewrite lookup_insert. case_decide as Hk.
    + intros [= <-]. simpl. by rewrite length_fmap.
    + rewrite lookup_insert. case_decide; [intros [= <-]; done | by rewrite lookup_empty].
Qed.

(** [generate_demo_data] never raises, and this is what it returns. *)
Lemma generate_demo_data_run (keyword : string) (w : world T) :
  generate_demo_data E keyword w =
  (Ok (demo_data E keyword (trace w)),
   World (last_request_time w) (demo_trace E (trace w))).
Proof.
  unfold generate_demo_data.
  unfold bind at 1, datetime_now. unfold bind at 1, emit, ask. cbn [trace last_request_time].
  unfold bind at 1. rewrite demo_values_run. cbn [trace last_request_time app].
  fold (demo_now E (trace w)). fold (demo_dates E (trace w)).
  rewrite length_seq. fold (demo_series E (trace w)).
  pose proof (demo_frame keyword (demo_dates E (trace w)) (demo_series E (trace w))) as Hf.
  rewrite demo_series_length, demo_dates_length in Hf. specialize (Hf eq_refl).
  unfold bind, lift, ret.
  destruct (DataFrame _) as [data|e]; [| discriminate Hf].
  rewrite Hf. unfold demo_trace, demo_data. by rewrite <- app_assoc.
Qed.

End GeneratorFacts.

Section FetcherFacts.

Context {T : Type} {num : PyNumber T}.
Variable E : env T.

Lemma attempt_accepted (keyword timeframe : string) (w : world T) (df : frame) :
  candidate_response E keyword timeframe (trace w) = Ok (Some df) ->
  accepted E keyword df ->
  attempt E keyword timeframe w =
  (Ok (Some (df, timeframe, true)),
   World (last_request_time w) (candidate_trace E keyword timeframe (trace w))).
Proof.
  unfold candidate_response, candidate_trace, accepted.
  intros Hresp (Hrows & Hcols & col & total & Hcol & Hsum & Hpos).
  unfold attempt, try_except, bind, build_payload, bind, emit, may_raise.
  cbn [trace last_request_time].
  destruct (build_payload_raises E _) as [e|]; [discriminate|].
  unfold interest_over_time, bind, emit, ask, lift. cbn [trace last_request_time].
  rewrite Hresp. unfold as_frame, ret, empty, in_columns, getitem.
  rewrite Hcol, Hsum.
  rewrite (bool_decide_eq_false_2 _ Hrows), (bool_decide_eq_false_2 _ Hcols).
  rewrite bool_decide_eq_true_2 by eauto. cbn [negb orb andb].
  destruct (Z.ltb_spec 0 total); [done | lia].
Qed.

Lemma attempt_rejected (keyword timeframe : string) (w : world T) :
  rejected E keyword (candidate_response E keyword timeframe (trace w)) ->
  attempt E keyword timeframe w =
  (Ok None,
   World (last_request_time w) (candidate_trace E keyword timeframe (trace w))).
Proof.
  unfold candidate_response, candidate_trace, rejected, accepted.
  intros Hrej.
  unfold attempt, try_except, bind, build_payload, bind, emit, may_raise.
  cbn [trace last_request_time].
  destruct (build_payload_raises E _) as [e|]; [done|].
  unfold interest_over_time, bind, emit, ask, lift. cbn [trace last_request_time].
  destruct (interest_over_time_returns E _) as [[df|]|e]; [| done | done].
  specialize (Hrej df eq_refl).
  unfold as_frame, ret, empty, in_columns, getitem.
  repeat case_bool_decide; cbn [negb orb andb]; try done.
  destruct (columns df !! keyword) as [col|] eqn:Hcol; [|done].
  destruct (col_sum (float64_sum E) col) as [total|e] eqn:Hsum; [|done].
  destruct (Z.ltb_spec 0 total); [| done].
  exfalso. apply Hrej. eauto 10.
Qed.

(** Whatever the provider does, one pass of the loop body ends without
    an exception and leaves [last_request_time] alone. *)
Lemma attempt_total (keyword timeframe : string) (w : world T) :
  exists r,
    attempt E keyword timeframe w =
    (Ok r, World (last_request_time w) (candidate_trace E keyword timeframe (trace w)))
    /\ (forall df tf real, r = Some (df, tf, real) ->
          tf = timeframe /\ real = true /\ accepted E keyword df /\
          candidate_response E keyword timeframe (trace w) = Ok (Some df))
    /\ (r = None -> rejected E keyword (candidate_response E keyword timeframe (trace w))).
Proof.
  assert (Hdec : forall df, accepted E keyword df \/ ~ accepted E keyword df).
  { intros df. unfold accepted.
    destruct (decide (col_len (df_index df) = 0%nat)) as [Hrows|Hrows];
      [right; by intros (H & _)|].
    destruct (decide (columns df = ∅)) as [Hcols|Hcols];
      [right; by intros (_ & H & _)|].
    destruct (columns df !! keyword) as [col|] eqn:Hcol;
      [|right; by intros (_ & _ & c & t & H & _)].
    destruct (col_sum (float64_sum E) col) as [total|e] eqn:Hsum;
      [|right; intros (_ & _ & c & t & [= <-] & H & _); congruence].
    destruct (decide (0 < total)) as [Hpos|Hpos].
    - left. eauto 10.
    - right. intros (_ & _ & c & t & [= <-] & H & Ht).
      rewrite Hsum in H. injection H as <-. done. }
  destruct (candidate_response E keyword timeframe (trace w)) as [[df|]|e] eqn:Hresp.
  - destruct (Hdec df) as [Hacc|Hnot].
    + eexists. split; [by apply attempt_accepted|].
      split; [| done]. intros df' tf real [= <- <- <-]. done.
    + assert (Hrej : rejected E keyword (Ok (Some df))) by (by intros df' [= <-]).
      eexists. split; [apply attempt_rejected; by rewrite Hresp|]. done.
  - assert (Hrej : rejected E keyword (Ok None)) by (intros df; done).
    eexists. split; [apply attempt_rejected; by rewrite Hresp|]. done.
  - assert (Hrej : rejected E keyword (@Raise (option frame) e)) by (intros df; done).
    eexists. split; [apply attempt_rejected; by rewrite Hresp|]. done.
Qed.

Lemma try_timeframes_rejected (keyword : string) (tfs : list string) :
  forall w : world T,
    all_rejected E keyword tfs (trace w) ->
    try_timeframes E keyword tfs w =
    (Ok None, World (last_request_time w) (after_candidates E keyword tfs (trace w))).
Proof.
  induction tfs as [|tf rest IH]; intros w Hall.
  - simpl. unfold ret. by destruct w.
  - destruct Hall as [Hrej Hall]. cbn [try_timeframes after_candidates].
    unfold bind. rewrite attempt_rejected by done.
    rewrite IH by done. reflexivity.
Qed.

Lemma try_timeframes_first (keyword : string) (pre : list string)
      (tf : string) (post : list string) (df : frame) :
  forall w : world T,
    all_rejected E keyword pre (trace w) ->
    candidate_response E keyword tf (after_candidates E keyword pre (trace w))
      = Ok (Some df) ->
    accepted E keyword df ->
    try_timeframes E keyword (pre ++ tf :: post) w =
    (Ok (Some (df, tf, true)),
     World (last_request_time w)
           (candidate_trace E keyword tf (after_candidates E keyword pre (trace w)))).
Proof.
  induction pre as [|tf0 pre IH]; intros w Hall Hresp Hacc.
  - cbn [app try_timeframes after_candidates] in *.
    unfold bind. by rewrite (attempt_accepted _ _ _ df).
  - destruct Hall as [Hrej Hall]. cbn [app try_timeframes after_candidates] in *.
    unfold bind. rewrite attempt_rejected by done.
    by rewrite IH.
Qed.

(** The loop either returns an accepted frame of some candidate, all
    candidates before it rejected, or rejects every candidate. *)
Lemma try_timeframes_total (keyword : string) (tfs : list string) :
  forall w : world T,
    (exists pre tf post df,
        tfs = pre ++ tf :: post /\
        all_rejected E keyword pre (trace w) /\
        candidate_response E keyword tf (after_candidates E keyword pre (trace w))
          = Ok (Some df) /\
        accepted E keyword df)
    \/ all_rejected E keyword tfs (trace w).
Proof.
  induction tfs as [|tf rest IH]; intros w; [by right|].
  destruct (attempt_total keyword tf w) as ([[[df tf'] real]|] & Hrun & Hsome & Hnone).
  - destruct (Hsome df tf' real eq_refl) as (-> & -> & Hacc & Hresp).
    left. exists [], tf, rest, df. done.
  - specialize (Hnone eq_refl).
    destruct (IH (World (last_request_time w) (candidate_trace E keyword tf (trace w))))
      as [(pre & tf' & post & df & -> & Hall & Hresp & Hacc) | Hall].
    + left. exists (tf :: pre), tf', post, df. done.
    + by right.
Qed.

Lemma payloads_candidate (keyword tf : string) (h : list (event T)) :
  payloads (candidate_trace E keyword tf h) = payloads h ++ [(keyword, tf)].
Proof.
  unfold candidate_trace, payloads.
  destruct (build_payload_raises E _); rewrite ?omap_app; simpl;
    by rewrite ?app_nil_r.
Qed.

Lemma payloads_after_candidates (keyword : string) (tfs : list string) :
  forall h : list (event T),
    payloads (after_candidates E keyword tfs h) =
    payloads h ++ ((fun tf => (keyword, tf)) <$> tfs).
Proof.
  induction tfs as [|tf rest IH]; intros h; simpl.
  - by rewrite app_nil_r.
  - by rewrite IH, payloads_candidate, <- app_assoc.
Qed.

Lemma candidate_trace_extends (keyword tf : string) (h : list (event T)) :
  exists more, candidate_trace E keyword tf h = h ++ more.
Proof.
  unfold candidate_trace. destruct (build_payload_raises E _).
  - by eexists.
  - eexists. by rewrite <- app_assoc.
Qed.

Lemma after_candidates_extends (keyword : string) (tfs : list string) :
  forall h : list (event T), exists more, after_candidates E keyword tfs h = h ++ more.
Proof.
  induction tfs as [|tf rest IH]; intros h; simpl.
  - exists []. by rewrite app_nil_r.
  - destruct (candidate_trace_extends keyword tf h) as [m1 ->].
    destruct (IH (h ++ m1)) as [m2 ->]. exists (m1 ++ m2). by rewrite app_assoc.
Qed.

Lemma demo_fallback_run (keyword : string) (w : world T) :
  demo_fallback E keyword w =
  (Ok (demo_data E keyword (trace w), demo_label, false),
   World (last_request_time w) (demo_trace E (trace w))).
Proof. unfold demo_fallback, bind. by rewrite generate_demo_data_run. Qed.

Lemma get_trends_data_offline (keyword : string) (w : world T) (e : exn) :
  TrendReq_raises E (trace w ++ [EvTrendReq]) = Some e ->
  get_trends_data E keyword w =
  demo_fallback E keyword (World (last_request_time w) (trace w ++ [EvTrendReq])).
Proof.
  intros Hraise.
  unfold get_trends_data, try_except, bind at 1, TrendReq, bind at 1, emit, may_raise.
  cbn [trace last_request_time]. by rewrite Hraise.
Qed.

Lemma get_trends_data_rejected (keyword : string) (w : world T) :
  TrendReq_raises E (trace w ++ [EvTrendReq]) = None ->
  all_rejected E keyword timeframes (trace w ++ [EvTrendReq]) ->
  get_trends_data E keyword w =
  demo_fallback E keyword
    (World (last_request_time w)
           (after_candidates E keyword timeframes (trace w ++ [EvTrendReq]))).
Proof.
  intros Hinit Hall.
  unfold get_trends_data, try_except, bind at 1, TrendReq, bind at 1, emit, may_raise.
  cbn [trace last_request_time]. rewrite Hinit.
  unfold bind at 1. rewrite try_timeframes_rejected by done.
  cbn [trace last_request_time]. rewrite demo_fallback_run. reflexivity.
Qed.

Lemma get_trends_data_accepted (keyword : string) (w : world T)
      (pre : list string) (tf : string) (post : list string) (df : frame) :
  timeframes = pre ++ tf :: post ->
  TrendReq_raises E (trace w ++ [EvTrendReq]) = None ->
  all_rejected E keyword pre (trace w ++ [EvTrendReq]) ->
  candidate_response E keyword tf
    (after_candidates E keyword pre (trace w ++ [EvTrendReq])) = Ok (Some df) ->
  accepted E keyword df ->
  get_trends_data E keyword w =
  (Ok (df, tf, true),
   World (last_request_time w)
         (candidate_trace E keyword tf
            (after_candidates E keyword pre (trace w ++ [EvTrendReq])))).
Proof.
  intros Htfs Hinit Hall Hresp Hacc.
  unfold get_trends_data, try_except, bind at 1, TrendReq, bind at 1, emit, may_raise.
  cbn [trace last_request_time]. rewrite Hinit.
  unfold bind at 1. rewrite Htfs.
  rewrite (try_timeframes_first keyword pre tf post df) by done.
  reflexivity.
Qed.

(** The fetch always returns: either a frame the provider gave and the
    loop accepted, or the synthetic frame under the demo label.  The
    client is constructed first, and [last_request_time] is not touched. *)
Lemma get_trends_data_cases (keyword : string) (w : world T) :
  exists data label real more,
    get_trends_data E keyword w =
    (Ok (data, label, real),
     World (last_request_time w) (trace w ++ EvTrendReq :: more))
    /\ (real = true -> accepted E keyword data)
    /\ (real = false -> label = demo_label /\ exists h, data = demo_data E keyword h).
Proof.
  destruct (TrendReq_raises E (trace w ++ [EvTrendReq])) as [e|] eqn:Hinit.
  - rewrite (get_trends_data_offline _ _ e) by done. rewrite demo_fallback_run.
    cbn [trace last_request_time]. unfold demo_trace.
    do 4 eexists. split; [by rewrite <- app_assoc|]. split; [done|]. eauto.
  - destruct (try_timeframes_total keyword timeframes
                (World (last_request_time w) (trace w ++ [EvTrendReq])))
      as [(pre & tf & post & df & Htfs & Hall & Hresp & Hacc) | Hall];
      cbn [trace] in *.
    + rewrite (get_trends_data_accepted keyword w pre tf post df) by done.
      destruct (after_candidates_extends keyword pre (trace w ++ [EvTrendReq])) as [m1 Hm1].
      destruct (candidate_trace_extends keyword tf
                  (after_candidates E keyword pre (trace w ++ [EvTrendReq]))) as [m2 Hm2].
      rewrite Hm2, Hm1. do 4 eexists. split; [by rewrite <- !app_assoc|]. done.
    + rewrite get_trends_data_rejected by done. rewrite demo_fallback_run.
      cbn [trace last_request_time]. unfold demo_trace.
      destruct (after_candidates_extends keyword timeframes (trace w ++ [EvTrendReq]))
        as [m1 ->].
      do 4 eexists. split; [by rewrite <- !app_assoc|]. split; [done|]. eauto.
Qed.

End FetcherFacts.

Section HandlerFacts.

Context {T : Type} {num : PyNumber T}.
Variable E : env T.

(** The first lines of both handlers: read the clock, sleep if less than
    ten seconds have passed, go on in the world [after_wait]. *)
Lemma rate_limit_run {A} (k : M T A) (w : world T) :
  (current_time <- time_time E ;;
   last <- get_last_request_time ;;
   (if num_lt (num_sub current_time last) (of_int 10) then
      let wait_time := num_sub (of_int 10) (num_sub current_time last) in
      time_sleep wait_time
    else ret tt) ;;;
   k)%py w = k (after_wait E w).
Proof.
  unfold bind at 1, time_time, bind at 1, emit, ask. cbn [trace last_request_time].
  unfold bind at 1, get_last_request_time. cbn [trace last_request_time].
  unfold after_wait, wait_events, elapsed.
  destruct (num_lt (num_sub _ _) (of_int 10)) eqn:Hlt.
  - unfold bind, time_sleep. rewrite (num_sub_lt _ _ Hlt).
    unfold emit. cbn [trace last_request_time]. by rewrite <- app_assoc.
  - unfold bind, ret. reflexivity.
Qed.

Lemma save_chart_frame (data : frame) (keyword : string) (real : bool)
      (w w' : world T) (r : result unit) :
  save_chart E data keyword real w = (r, w') ->
  last_request_time w' = last_request_time w /\
  exists more, trace w' = trace w ++ more.
Proof.
  unfold save_chart, os_makedirs, plt_plot, plt_savefig, plt_close,
    bind, emit, may_raise, lift. cbn [trace last_request_time].
  repeat match goal with
         | |- context [match ?o with _ => _ end] =>
             match type of o with
             | option exn => destruct o
             | result column => destruct o
             end
         end;
    intros [= <- <-]; cbn [trace last_request_time];
    (split; [done|]); rewrite <- ?app_assoc; by eexists.
Qed.

Lemma index_run (req : request) (w w2 : world T) (keyword : string)
      (data : frame) (tf : string) (real : bool) :
  method req = "POST" ->
  strip (form_get req "keyword") = keyword ->
  keyword ≠ "" ->
  get_trends_data E keyword (after_wait E w) = (Ok (data, tf, real), w2) ->
  index E req w =
  if guard keyword data then
    match save_chart E data keyword real w2 with
    | (Ok _, w3) =>
        match table_html E (tail 10 data) keyword with
        | Ok table =>
            (Ok (Page (Some (if negb real then demo_notice +:+ table else table)) None),
             stamped E w3)
        | Raise e => (Ok (Page None (Some (processing_error_message e))), w3)
        end
    | (Raise e, w3) => (Ok (Page None (Some (processing_error_message e))), w3)
    end
  else (Ok (Page None (Some (no_data_message keyword))), stamped E w2).
Proof.
  intros Hpost Hkw Hne Hfetch. unfold index.
  rewrite Hkw, (bool_decide_eq_true_2 _ Hpost), (bool_decide_eq_false_2 _ Hne).
  unfold try_except. rewrite rate_limit_run.
  unfold bind at 1. rewrite Hfetch. fold (guard keyword data).
  unfold bind at 1. destruct (guard keyword data).
  - unfold bind at 1. destruct (save_chart E data keyword real w2) as [[[]|e] w3]; [|done].
    unfold bind at 1, lift. destruct (table_html E _ _) as [table|e]; [|done].
    unfold ret at 1. unfold bind, time_time, bind, emit, ask, set_last_request_time, ret.
    reflexivity.
  - unfold ret at 1. unfold bind, time_time, bind, emit, ask, set_last_request_time, ret.
    reflexivity.
Qed.

Lemma analyze_run (req : request) (w w2 : world T) (keyword : string)
      (data : frame) (tf : string) (real : bool) :
  strip (form_get req "keyword") = keyword ->
  keyword ≠ "" ->
  get_trends_data E keyword (after_wait E w) = (Ok (data, tf, real), w2) ->
  analyze E req w =
  if guard keyword data then
    match save_chart E data keyword real w2 with
    | (Ok _, w3) =>
        match index_dates E data with
        | Ok dates =>
            match getitem data keyword with
            | Ok col =>
                (Ok (JsonResult dates (int_values col) tf keyword (negb real), 200),
                 stamped E w3)
            | Raise e => (Ok (JsonError (server_error_message e), 500), w3)
            end
        | Raise e => (Ok (JsonError (server_error_message e), 500), w3)
        end
    | (Raise e, w3) => (Ok (JsonError (server_error_message e), 500), w3)
    end
  else (Ok (JsonError (not_found_message keyword), 404), w2).
Proof.
  intros Hkw Hne Hfetch. unfold analyze.
  rewrite Hkw, (bool_decide_eq_false_2 _ Hne).
  unfold try_except. rewrite rate_limit_run.
  unfold bind at 1. rewrite Hfetch. fold (guard keyword data).
  destruct (guard keyword data); [|done].
  unfold bind at 1. destruct (save_chart E data keyword real w2) as [[[]|e] w3]; [|done].
  unfold bind at 1, lift. destruct (index_dates E data) as [dates|e]; [|done].
  unfold bind at 1. destruct (getitem data keyword) as [col|e]; [|done].
  unfold bind, time_time, bind, emit, ask, set_last_request_time, ret.
  reflexivity.
Qed.

End HandlerFacts.

(** * The fetcher *)

Lemma rejected_raise {T} (E : env T) (keyword : string) (e : exn) :
  rejected E keyword (Raise e).
Proof. intros df Hdf. discriminate Hdf. Qed.

Lemma rejected_empty {T} (E : env T) (keyword : string) (df : frame) :
  empty df = true -> rejected E keyword (Ok (Some df)).
Proof.
  unfold empty. intros Hempty df' [= <-] (Hrows & Hcols & _).
  apply orb_true_iff in Hempty as [H|H]; apply bool_decide_eq_true in H; done.
Qed.

(** A column of zeros and NaN has the total zero. *)
Lemma col_sum_zeros (fsum : list (option Z) -> Z) (vs : list (option Z)) :
  (forall v, Some v ∈ vs -> v = 0) ->
  col_sum fsum (Numbers vs) = Ok 0.
Proof.
  intros Hzero.
  assert (Hsums : sum_skipna vs = 0 /\ abs_sum vs = 0).
  { induction vs as [|v vs IH]; [done|].
    destruct IH as [IH1 IH2].
    { intros x Hx. apply Hzero. by apply list_elem_of_further. }
    unfold sum_skipna, abs_sum in *. cbn [foldr]. rewrite IH1, IH2.
    destruct v as [x|]; [|done].
    rewrite (Hzero x) by apply list_elem_of_here. done. }
  destruct Hsums as [Hs Ha]. unfold col_sum. rewrite Hs, Ha.
  by destruct (notna vs).
Qed.

Lemma rejected_zero_sum {T} (E : env T) (keyword : string) (df : frame)
      (vs : list (option Z)) :
  columns df !! keyword = Some (Numbers vs) ->
  (forall v, Some v ∈ vs -> v = 0) ->
  rejected E keyword (Ok (Some df)).
Proof.
  intros Hcol Hzero df' [= <-] (_ & _ & col & total & Hcol' & Hsum & Hpos).
  rewrite Hcol in Hcol'. injection Hcol' as <-.
  rewrite (col_sum_zeros _ vs Hzero) in Hsum. injection Hsum as <-. lia.
Qed.

(** C1.  [get_trends_data] never raises: for every keyword, every
    environment (a provider client that cannot be constructed and
    provider queries that fail included) and every world, it returns a
    triple of a data frame, a window label and the flag that tells real
    data from synthetic data. *)
Theorem get_trends_data_never_raises {T} {num : PyNumber T}
        (E : env T) (keyword : string) (w : world T) :
  exists (data : frame) (label : string) (is_real : bool) (w' : world T),
    get_trends_data E keyword w = (Ok (data, label, is_real), w').
Proof.
  destruct (get_trends_data_cases E keyword w)
    as (data & label & real & more & Hrun & _).
  by exists data, label, real, (World (last_request_time w) (trace w ++ EvTrendReq :: more)).
Qed.

(** C2.  The candidate windows are tried in the order "now 7-d",
    "today 1-m", "today 3-m".  When the candidates before [tf] are all
    rejected and the answer for [tf] is accepted (non-empty, with the
    keyword's column, with a positive sum), [get_trends_data] returns
    that frame with the label [tf] and the flag for real data, and the
    [build_payload] calls it made are those for the candidates up to
    [tf], in order: no later candidate is queried. *)
Theorem first_accepted_candidate_returned {T} {num : PyNumber T}
        (E : env T) (keyword : string) (w : world T)
        (pre : list string) (tf : string) (post : list string) (df : frame) :
  timeframes = pre ++ tf :: post ->
  TrendReq_raises E (trace w ++ [EvTrendReq]) = None ->
  all_rejected E keyword pre (trace w ++ [EvTrendReq]) ->
  candidate_response E keyword tf
    (after_candidates E keyword pre (trace w ++ [EvTrendReq])) = Ok (Some df) ->
  accepted E keyword df ->
  timeframes = ["now 7-d"; "today 1-m"; "today 3-m"] /\
  exists w' : world T,
    get_trends_data E keyword w = (Ok (df, tf, true), w') /\
    payloads (trace w') =
    payloads (trace w) ++ ((fun t => (keyword, t)) <$> (pre ++ [tf])).
Proof.
  intros Htfs Hinit Hall Hresp Hacc. split; [reflexivity|].
  eexists. split; [by apply (get_trends_data_accepted E keyword w pre tf post df)|].
  cbn [trace]. rewrite payloads_candidate, payloads_after_candidates.
  rewrite fmap_app. unfold payloads at 1. rewrite omap_app. simpl.
  by rewrite app_nil_r, <- app_assoc.
Qed.

Lemma first_accepted_candidate_returned_witness :
  exists w' : world Z,
    get_trends_data month_only "python" initial_world
    = (Ok (sample_frame, "today 1-m", true), w') /\
    payloads (trace w') = [("python", "now 7-d"); ("python", "today 1-m")].
Proof.
  refine (proj2 (first_accepted_candidate_returned month_only "python" initial_world
                   ["now 7-d"] "today 1-m" ["today 3-m"] sample_frame
                   eq_refl eq_refl _ eq_refl _)).
  - split; [|exact I]. intros df Hdf. vm_compute in Hdf. discriminate Hdf.
  - split; [vm_compute; discriminate|]. split.
    + intros Hempty. apply (f_equal (fun m => m !! "python")) in Hempty.
      vm_compute in Hempty. discriminate Hempty.
    + exists (Numbers [Some 40; None; Some 60]), 100.
      split; [reflexivity|]. split; [vm_compute; reflexivity | reflexivity].
Defined.

(** C3.  When the provider client cannot be constructed, or when it can
    and all three candidates are rejected (an exception, an empty frame,
    a sum of zero, ...), [get_trends_data] returns the frame that
    [generate_demo_data] makes at that point, with the label
    "demo (last 3 months)" and the flag for synthetic data. *)
Theorem synthetic_fallback {T} {num : PyNumber T}
        (E : env T) (keyword : string) (w : world T) :
  (exists e, TrendReq_raises E (trace w ++ [EvTrendReq]) = Some e) \/
  (TrendReq_raises E (trace w ++ [EvTrendReq]) = None /\
   all_rejected E keyword timeframes (trace w ++ [EvTrendReq])) ->
  let h := match TrendReq_raises E (trace w ++ [EvTrendReq]) with
           | Some _ => trace w ++ [EvTrendReq]
           | None => after_candidates E keyword timeframes (trace w ++ [EvTrendReq])
           end in
  exists (data : frame) (w' : world T),
    generate_demo_data E keyword (World (last_request_time w) h) = (Ok data, w') /\
    get_trends_data E keyword w = (Ok (data, "demo (last 3 months)", false), w').
Proof.
  intros [[e Hinit] | [Hinit Hall]]; rewrite Hinit; cbv zeta.
  - rewrite (get_trends_data_offline E keyword w e Hinit).
    rewrite demo_fallback_run, generate_demo_data_run. by do 2 eexists.
  - rewrite (get_trends_data_rejected E keyword w Hinit Hall).
    rewrite demo_fallback_run, generate_demo_data_run. by do 2 eexists.
Qed.

Lemma synthetic_fallback_witness :
  exists (data : frame) (w' : world Z),
    generate_demo_data offline "python" (World 0 [EvTrendReq]) = (Ok data, w') /\
    get_trends_data offline "python" initial_world
    = (Ok (data, "demo (last 3 months)", false), w').
Proof.
  pose proof (synthetic_fallback offline "python" initial_world) as H.
  change (TrendReq_raises offline (trace initial_world ++ [EvTrendReq]))
    with (Some (Exn "ConnectionError" "no route to host")) in H.
  cbv beta iota zeta in H.
  apply H. left. by eexists.
Defined.

(** * The generator *)

Lemma lstrip_points_spaces (cs : list N) :
  Forall (fun c => isspace c = true) cs -> lstrip_points cs = [].
Proof. induction 1 as [|c cs Hc _ IH]; [done|]. simpl. by rewrite Hc. Qed.

Lemma whitespace_only_strip (s : string) : whitespace_only s -> strip s = "".
Proof.
  unfold strip, whitespace_only. intros Hs.
  by rewrite (lstrip_points_spaces _ Hs).
Qed.

Lemma demo_dates_daily {T} (E : env T) (h : list (event T)) : daily (demo_dates E h).
Proof.
  intros i d d' Hd Hd'.
  assert (Hi : (S i < 91)%nat).
  { rewrite <- (demo_dates_length E h). by eapply lookup_lt_Some. }
  rewrite demo_dates_lookup in Hd by lia. rewrite demo_dates_lookup in Hd' by lia.
  injection Hd as <-. injection Hd' as <-. lia.
Qed.

(** Points that are one day apart come in strictly increasing order. *)
Lemma daily_increasing (ds : list Z) :
  daily ds ->
  forall i j d d', (i < j)%nat -> ds !! i = Some d -> ds !! j = Some d' -> d < d'.
Proof.
  intros Hdaily i j. induction j as [|j IH]; intros d d' Hij Hd Hd'; [lia|].
  destruct (lookup_lt_is_Some_2 ds j) as [dj Hdj].
  { apply lookup_lt_Some in Hd'. lia. }
  pose proof (Hdaily j dj d' Hdj Hd') as ->.
  destruct (decide (i = j)) as [->|Hne].
  - rewrite Hd in Hdj. injection Hdj as ->. unfold microseconds_per_day. lia.
  - assert (d < dj) by (apply IH; [lia | done | done]).
    unfold microseconds_per_day. lia.
Qed.

Lemma demo_series_lookup {T} (E : env T) (h : list (event T)) (i : nat) :
  (i < 91)%nat ->
  exists r, -10 <= r <= 10 /\
            demo_series E h !! i = Some (Z.max 10 (pattern_at i + r)).
Proof.
  intros Hi. unfold demo_series. rewrite demo_dates_length.
  destruct (lookup_lt_is_Some_2 (demo_draws E 91 (h ++ [EvDatetimeNow])) i) as [r Hr].
  { by rewrite demo_draws_length. }
  exists r. split.
  - eapply demo_draws_bounds. by eapply list_elem_of_lookup_2.
  - rewrite lookup_zip_with, lookup_seq_lt by done. rewrite Hr. reflexivity.
Qed.

(** For every keyword but ['date'], the generated frame has the 91 daily
    dates up to now as its index and, under the keyword, the 91 values
    [max(10, base[i mod 15] + r_i)] with [r_i] between -10 and 10. *)
Lemma generate_demo_data_shape {T} {num : PyNumber T}
      (E : env T) (keyword : string) (w : world T) :
  keyword ≠ "date" ->
  exists (dates values : list Z) (w' : world T),
    generate_demo_data E keyword w =
    (Ok (Frame (Some "date") (Dates dates)
               {[keyword := Numbers (Some <$> values)]}), w') /\
    length dates = 91%nat /\ length values = 91%nat /\
    dates !! 90%nat = Some (demo_now E (trace w)) /\
    daily dates /\
    (forall i j d d', (i < j)%nat -> dates !! i = Some d -> dates !! j = Some d' -> d < d') /\
    (forall i, (i < 91)%nat ->
       exists r, -10 <= r <= 10 /\ values !! i = Some (Z.max 10 (pattern_at i + r))) /\
    (forall v, v ∈ values -> 10 <= v).
Proof.
  intros Hne. rewrite generate_demo_data_run. unfold demo_data.
  rewrite decide_False by done.
  exists (demo_dates E (trace w)), (demo_series E (trace w)). eexists.
  split; [reflexivity|].
  split; [apply demo_dates_length|]. split; [apply demo_series_length|].
  split.
  { rewrite demo_dates_lookup by lia. f_equal.
    unfold timedelta_days, microseconds_per_day. lia. }
  split; [apply demo_dates_daily|].
  split; [apply daily_increasing, demo_dates_daily|].
  split; [apply demo_series_lookup|].
  intros v Hv. apply list_elem_of_lookup in Hv as [i Hi].
  assert (Hlt : (i < 91)%nat).
  { rewrite <- (demo_series_length E (trace w)). by eapply lookup_lt_Some. }
  destruct (demo_series_lookup E (trace w) i Hlt) as (r & _ & Hr).
  rewrite Hr in Hi. injection Hi as <-. lia.
Qed.

(** On the fallback path the guard of the handlers passes for every
    keyword but ['date']. *)
Lemma demo_guard_passes {T} (E : env T) (keyword : string) (h : list (event T)) :
  keyword ≠ "date" -> guard keyword (demo_data E keyword h) = true.
Proof.
  intros Hne. unfold guard, empty, in_columns, demo_data.
  rewrite decide_False by done. cbn [df_index columns col_len].
  rewrite demo_dates_length.
  rewrite bool_decide_eq_false_2 by done.
  rewrite bool_decide_eq_false_2.
  2: { intros Hempty. apply (f_equal (fun m => m !! keyword)) in Hempty.
       by rewrite lookup_singleton_eq, lookup_empty in Hempty. }
  rewrite bool_decide_eq_true_2; [done|]. rewrite lookup_singleton_eq. by eexists.
Qed.

(** Two keywords other than ['date'] get the same dates and the same
    values from the same clock and the same random numbers. *)
Lemma demo_keyword_independent {T} {num : PyNumber T}
      (E : env T) (k1 k2 : string) (w : world T) :
  k1 ≠ "date" -> k2 ≠ "date" ->
  exists (dates : list Z) (values : list (option Z)) (w' : world T),
    generate_demo_data E k1 w
    = (Ok (Frame (Some "date") (Dates dates) {[k1 := Numbers values]}), w') /\
    generate_demo_data E k2 w
    = (Ok (Frame (Some "date") (Dates dates) {[k2 := Numbers values]}), w').
Proof.
  intros H1 H2. rewrite !generate_demo_data_run. unfold demo_data.
  rewrite !decide_False by done. by do 3 eexists.
Qed.

(** C4.  With the keyword ['date'] the frame that [generate_demo_data]
    returns has no dates and no value column: the dictionary literal
    keeps one entry, the 91 values, and [set_index] turns them into the
    index.  For every other keyword [generate_demo_data_shape] holds. *)
Theorem generate_demo_data_keyword_date {T} {num : PyNumber T}
        (E : env T) (w : world T) :
  exists (values : list Z) (w' : world T),
    generate_demo_data E "date" w =
    (Ok (Frame (Some "date") (Numbers (Some <$> values)) ∅), w') /\
    length values = 91%nat.
Proof.
  rewrite generate_demo_data_run. unfold demo_data. rewrite decide_True by done.
  do 2 eexists. split; [reflexivity|]. apply demo_series_length.
Qed.

(** C9.  With the provider out of reach and the keyword ['date'] the
    fetch falls back to synthetic data, the frame is empty and has no
    column for the keyword, the guard fails, and [analyze] answers 404. *)
Theorem synthetic_date_not_found :
  exists (data : frame) (w' : world Z),
    get_trends_data offline "date" initial_world
    = (Ok (data, "demo (last 3 months)", false), w') /\
    empty data = true /\ in_columns "date" data = false /\
    guard "date" data = false /\
    fst (analyze offline (post "date") initial_world)
    = Ok (JsonError (not_found_message "date"), 404) /\
    fst (index offline (post "date") initial_world)
    = Ok (Page None (Some (no_data_message "date"))).
Proof.
  do 2 eexists. split; [vm_compute; reflexivity|].
  repeat split; vm_compute; reflexivity.
Qed.

(** C10.  The keyword ['date'] changes more than a column name: from the
    same clock and random numbers, its frame has the values as index and
    no column, the frame of ['python'] has the dates as index and the
    values as column. *)
Theorem keyword_date_changes_frame {T} {num : PyNumber T}
        (E : env T) (w : world T) :
  exists (d1 d2 : frame) (w1 w2 : world T),
    generate_demo_data E "date" w = (Ok d1, w1) /\
    generate_demo_data E "python" w = (Ok d2, w2) /\
    df_index d1 ≠ df_index d2 /\
    columns d1 !! "date" = None /\
    columns d2 !! "python" = Some (df_index d1).
Proof.
  rewrite !generate_demo_data_run. unfold demo_data.
  rewrite decide_True by done. rewrite decide_False by done.
  do 4 eexists. split; [reflexivity|]. split; [reflexivity|].
  cbn [df_index columns]. split; [done|]. split; [done|].
  by rewrite lookup_singleton_eq.
Qed.

(** * The handlers *)

Lemma processing_not_no_data (keyword : string) (e : exn) :
  Some (processing_error_message e) ≠ Some (no_data_message keyword).
Proof. unfold no_data_message, processing_error_message. simpl. discriminate. Qed.


(** C8.  On POST / with a keyword that is missing, empty or made of
    white space only, the page handler answers with the validation
    message and leaves the world as it was: nothing is added to the
    trace (no clock reading, no sleep, no provider call, no chart file)
    and [last_request_time] keeps its value. *)
Theorem empty_keyword_reported_at_once {T} {num : PyNumber T}
        (E : env T) (req : request) (w : world T) :
  method req = "POST" ->
  whitespace_only (form_get req "keyword") ->
  index E req w = (Ok (Page None (Some "Please enter a keyword to search.")), w).
Proof.
  intros Hpost Hws. unfold index.
  rewrite (bool_decide_eq_true_2 _ Hpost), (whitespace_only_strip _ Hws).
  reflexivity.
Qed.

Lemma empty_keyword_reported_at_once_witness :
  index offline (post blank) initial_world
  = (Ok (Page None (Some "Please enter a keyword to search.")), initial_world).
Proof.
  apply (empty_keyword_reported_at_once offline (post blank) initial_world eq_refl).
  unfold whitespace_only.
  change (decode (form_get (post blank) "keyword")) with [32; 0xA0; 0x2003; 9]%N.
  repeat constructor.
Defined.

(** Closes a goal [exists rest, h ++ more = h ++ ... :: rest]. *)
Ltac extend_trace :=
  repeat first [rewrite <- app_assoc | progress cbn [app]]; by eexists.

(** C6.  In both handlers, for a keyword that is not empty after
    stripping, the first thing done is a clock reading; the elapsed time
    is that reading minus [last_request_time]; if it is less than 10 the
    handler sleeps [10 - elapsed] and then constructs the provider
    client, otherwise it constructs the client with no sleep. *)
Theorem rate_limit_wait_before_fetch {T} {num : PyNumber T}
        (E : env T) (req : request) (w : world T) :
  strip (form_get req "keyword") ≠ "" ->
  let elapsed := num_sub (time_returns E (trace w ++ [EvTime])) (last_request_time w) in
  let waited := if num_lt elapsed (of_int 10)
                then [EvSleep (num_sub (of_int 10) elapsed)]
                else [] in
  (method req = "POST" ->
   exists rest, trace (snd (index E req w))
                = trace w ++ EvTime :: waited ++ EvTrendReq :: rest) /\
  (exists rest, trace (snd (analyze E req w))
                = trace w ++ EvTime :: waited ++ EvTrendReq :: rest).
Proof.
  intros Hne elapsed0 waited.
  destruct (get_trends_data_cases E (strip (form_get req "keyword")) (after_wait E w))
    as (data & label & real & more & Hrun & _).
  assert (Hstart : trace (after_wait E w) = trace w ++ EvTime :: waited) by reflexivity.
  cbn [last_request_time] in Hrun. rewrite Hstart in Hrun.
  split.
  - intros Hpost. rewrite (index_run E req w _ _ data label real Hpost eq_refl Hne Hrun).
    destruct (guard _ data).
    + destruct (save_chart E data _ real _) as [[[]|e] w3] eqn:Hchart;
        apply save_chart_frame in Hchart as (_ & extra & Htrace);
        cbn [trace] in Htrace.
      * destruct (table_html E _ _); cbn [snd trace stamped]; rewrite Htrace;
          extend_trace.
      * cbn [snd]. rewrite Htrace. extend_trace.
    + cbn [snd trace stamped]. extend_trace.
  - rewrite (analyze_run E req w _ _ data label real eq_refl Hne Hrun).
    destruct (guard _ data).
    + destruct (save_chart E data _ real _) as [[[]|e] w3] eqn:Hchart;
        apply save_chart_frame in Hchart as (_ & extra & Htrace);
        cbn [trace] in Htrace.
      * destruct (index_dates E data); [destruct (getitem data _)|];
          cbn [snd trace stamped]; rewrite Htrace;
          extend_trace.
      * cbn [snd]. rewrite Htrace. extend_trace.
    + cbn [snd trace]. extend_trace.
Qed.

Lemma rate_limit_wait_before_fetch_witness :
  (exists rest,
      trace (snd (index offline (post "python") (World 995 [])))
      = EvTime :: EvSleep 4 :: EvTrendReq :: rest) /\
  (exists rest,
      trace (snd (analyze offline (post "python") (World 995 [])))
      = EvTime :: EvSleep 4 :: EvTrendReq :: rest).
Proof.
  assert (Hne : strip (form_get (post "python") "keyword") ≠ "")
    by (vm_compute; discriminate).
  pose proof (rate_limit_wait_before_fetch offline (post "python") (World 995 []) Hne)
    as [Hindex Hanalyze].
  split; [exact (Hindex eq_refl) | exact Hanalyze].
Defined.

(** C7.  [analyze] answers 400 with an error when the keyword is missing
    or empty after stripping.  Otherwise it fetches (in the world after
    the rate limiter's wait) and answers 404 with an error when the
    frame is empty or lacks the keyword's column; when the frame passes,
    it answers 200 with dates, values, the window label, the keyword and
    the demo flag, unless saving the chart or reading the dates raises,
    in which case it answers 500 with an error. *)
Theorem analyze_responses {T} {num : PyNumber T}
        (E : env T) (req : request) (w : world T) :
  let keyword := strip (form_get req "keyword") in
  (keyword = "" ->
   analyze E req w = (Ok (JsonError "Please enter a keyword", 400), w)) /\
  (keyword ≠ "" ->
   forall data tf real w2,
     get_trends_data E keyword (after_wait E w) = (Ok (data, tf, real), w2) ->
     (empty data = true \/ in_columns keyword data = false ->
      fst (analyze E req w) = Ok (JsonError (not_found_message keyword), 404)) /\
     (empty data = false -> in_columns keyword data = true ->
      forall r w3, save_chart E data keyword real w2 = (r, w3) ->
        match r, index_dates E data with
        | Ok _, Ok dates =>
            exists col, columns data !! keyword = Some col /\
              fst (analyze E req w)
              = Ok (JsonResult dates (int_values col) tf keyword (negb real), 200)
        | Ok _, Raise e | Raise e, _ =>
            fst (analyze E req w) = Ok (JsonError (server_error_message e), 500)
        end)).
Proof.
  intros keyword. split.
  - intros Hempty. unfold analyze, try_except. fold keyword. rewrite Hempty.
    reflexivity.
  - intros Hne data tf real w2 Hfetch.
    rewrite (analyze_run E req w w2 keyword data tf real eq_refl Hne Hfetch).
    unfold guard. split.
    + intros [-> | ->]; [done|]. by rewrite andb_false_r.
    + intros -> Hcol r w3 Hchart. rewrite Hcol, Hchart. cbn [negb andb].
      destruct r as [[]|e]; [|done].
      destruct (index_dates E data) as [dates|e]; [|done].
      unfold in_columns in Hcol. apply bool_decide_eq_true in Hcol as [col Hcol].
      unfold getitem. rewrite Hcol. by exists col.
Qed.

Lemma analyze_responses_witness :
  analyze offline (post blank) initial_world
  = (Ok (JsonError "Please enter a keyword", 400), initial_world) /\
  fst (analyze offline (post "date") initial_world)
  = Ok (JsonError (not_found_message "date"), 404) /\
  (exists dates values,
      fst (analyze offline (post "python") initial_world)
      = Ok (JsonResult dates values "demo (last 3 months)" "python" true, 200)) /\
  fst (analyze broken_disk (post "python") initial_world)
  = Ok (JsonError (server_error_message (Exn "OSError" "No space left on device")), 500).
Proof.
  split; [| split; [| split]].
  - apply (proj1 (analyze_responses offline (post blank) initial_world)).
    vm_compute. reflexivity.
  - destruct (get_trends_data offline "date" (after_wait offline initial_world))
      as [[[[data tf] real]|e] w2] eqn:Hfetch; [|vm_compute in Hfetch; discriminate].
    assert (Hne : strip (form_get (post "date") "keyword") ≠ "")
      by (vm_compute; discriminate).
    apply (proj1 (proj2 (analyze_responses offline (post "date") initial_world)
                    Hne data tf real w2 Hfetch)).
    vm_compute in Hfetch. injection Hfetch as <- _ _ _. left. reflexivity.
  - destruct (get_trends_data offline "python" (after_wait offline initial_world))
      as [[[[data tf] real]|e] w2] eqn:Hfetch; [|vm_compute in Hfetch; discriminate].
    assert (Hne : strip (form_get (post "python") "keyword") ≠ "")
      by (vm_compute; discriminate).
    destruct (save_chart offline data "python" real w2) as [r w3] eqn:Hchart.
    pose proof (proj2 (proj2 (analyze_responses offline (post "python") initial_world)
                         Hne data tf real w2 Hfetch)) as H.
    vm_compute in Hfetch. injection Hfetch as <- <- <- <-.
    specialize (H eq_refl eq_refl r w3 Hchart).
    vm_compute in Hchart. injection Hchart as <- _.
    destruct H as (col & _ & H). eexists. eexists. exact H.
  - destruct (get_trends_data broken_disk "python" (after_wait broken_disk initial_world))
      as [[[[data tf] real]|e] w2] eqn:Hfetch; [|vm_compute in Hfetch; discriminate].
    assert (Hne : strip (form_get (post "python") "keyword") ≠ "")
      by (vm_compute; discriminate).
    destruct (save_chart broken_disk data "python" real w2) as [r w3] eqn:Hchart.
    pose proof (proj2 (proj2 (analyze_responses broken_disk (post "python") initial_world)
                         Hne data tf real w2 Hfetch)) as H.
    vm_compute in Hfetch. injection Hfetch as <- <- <- <-.
    specialize (H eq_refl eq_refl r w3 Hchart).
    vm_compute in Hchart. injection Hchart as <- _.
    exact H.
Defined.





(** The 404 branch of [analyze] returns before the line that stamps
    [last_request_time]; the page handler stamps it on its no-data
    branch. *)
Lemma not_found_stamp_differs :
  last_request_time (snd (analyze offline (post "date") initial_world)) = 0 /\
  last_request_time (snd (index offline (post "date") initial_world)) = 1095.
Proof. split; vm_compute; reflexivity. Qed.

(** * Further properties *)

(** ** What the traces of the fetch and of the chart block contain *)

Section TraceFacts.

Context {T : Type} {num : PyNumber T}.
Variable E : env T.

Lemma payloads_app (h1 h2 : list (event T)) :
  payloads (h1 ++ h2) = payloads h1 ++ payloads h2.
Proof. unfold payloads. apply omap_app. Qed.

Lemma sleeps_app (h1 h2 : list (event T)) :
  sleeps (h1 ++ h2) = sleeps h1 ++ sleeps h2.
Proof. unfold sleeps. apply omap_app. Qed.

Lemma savefigs_app (h1 h2 : list (event T)) :
  savefigs (h1 ++ h2) = savefigs h1 ++ savefigs h2.
Proof. unfold savefigs. apply omap_app. Qed.

Lemma after_client_quiet (h : list (event T)) :
  Forall (fun e => after_client_event e = true) h ->
  sleeps h = [] /\ savefigs h = [].
Proof.
  induction 1 as [|e h He _ [IH1 IH2]]; [done|].
  destruct e; try discriminate He; simpl; done.
Qed.

Lemma chart_quiet (h : list (event T)) :
  Forall (fun e => chart_event e = true) h ->
  sleeps h = [] /\ payloads h = [].
Proof.
  induction 1 as [|e h He _ [IH1 IH2]]; [done|].
  destruct e; try discriminate He; simpl; done.
Qed.

Lemma candidate_trace_events (keyword tf : string) (h : list (event T)) :
  exists more,
    candidate_trace E keyword tf h = h ++ more /\
    Forall (fun e => after_client_event e = true) more /\
    payloads more = [(keyword, tf)].
Proof.
  unfold candidate_trace. destruct (build_payload_raises E _).
  - eexists. split; [done|]. split; [by repeat constructor | done].
  - eexists. split; [by rewrite <- app_assoc|].
    split; [by repeat constructor | done].
Qed.

Lemma after_candidates_events (keyword : string) (tfs : list string) :
  forall h : list (event T),
  exists more,
    after_candidates E keyword tfs h = h ++ more /\
    Forall (fun e => after_client_event e = true) more /\
    payloads more = (fun tf => (keyword, tf)) <$> tfs.
Proof.
  induction tfs as [|tf rest IH]; intros h; simpl.
  - exists []. by rewrite app_nil_r.
  - destruct (candidate_trace_events keyword tf h) as (m1 & -> & Hm1 & Hp1).
    destruct (IH (h ++ m1)) as (m2 & -> & Hm2 & Hp2).
    exists (m1 ++ m2). split; [by rewrite app_assoc|].
    split; [by apply Forall_app|]. by rewrite payloads_app, Hp1, Hp2.
Qed.

Lemma generator_events (n : nat) :
  Forall (fun e : event T => after_client_event e = true)
         (EvDatetimeNow :: replicate n (EvRandint (-10) 10)) /\
  payloads (EvDatetimeNow :: replicate n (@EvRandint T (-10) 10)) = [].
Proof.
  split.
  - constructor; [done|]. by apply Forall_replicate.
  - induction n as [|n IH]; [done|]. exact IH.
Qed.

Lemma accepted_guard (keyword : string) (df : frame) :
  accepted E keyword df -> guard keyword df = true.
Proof.
  intros (Hrows & Hcols & col & total & Hcol & _). unfold guard, empty, in_columns.
  rewrite (bool_decide_eq_false_2 _ Hrows), (bool_decide_eq_false_2 _ Hcols).
  rewrite bool_decide_eq_true_2; [done | by rewrite Hcol].
Qed.

(** Everything a fetch does and returns: the client is constructed
    first; then come provider queries for the first [n] time frames and,
    on the fallback path, the generator's calls. *)
Lemma get_trends_data_events (keyword : string) (w : world T) :
  exists data label real more n,
    get_trends_data E keyword w =
    (Ok (data, label, real),
     World (last_request_time w) (trace w ++ EvTrendReq :: more)) /\
    Forall (fun e => after_client_event e = true) more /\
    (n <= 3)%nat /\
    payloads more = (fun tf => (keyword, tf)) <$> take n timeframes /\
    (real = true ->
       accepted E keyword data /\ (0 < n)%nat /\ timeframes !! (n - 1)%nat = Some label) /\
    (real = false ->
       label = demo_label /\ (n = 0%nat \/ n = 3%nat) /\
       exists h, data = demo_data E keyword h).
Proof.
  destruct (TrendReq_raises E (trace w ++ [EvTrendReq])) as [e|] eqn:Hinit.
  - rewrite (get_trends_data_offline _ _ _ e) by done. rewrite demo_fallback_run.
    cbn [trace last_request_time]. unfold demo_trace.
    eexists _, _, _, _, 0%nat. split; [by rewrite <- app_assoc|].
    split; [apply generator_events|]. split; [lia|].
    split; [apply generator_events|].
    split; [done|]. intros _. split; [done|]. split; [by left | by eexists].
  - destruct (try_timeframes_total E keyword timeframes
                (World (last_request_time w) (trace w ++ [EvTrendReq])))
      as [(pre & tf & post & df & Htfs & Hall & Hresp & Hacc) | Hall];
      cbn [trace] in *.
    + rewrite (get_trends_data_accepted E keyword w pre tf post df) by done.
      destruct (after_candidates_events keyword pre (trace w ++ [EvTrendReq]))
        as (m1 & Hm1 & Hev1 & Hp1).
      destruct (candidate_trace_events keyword tf
                  (after_candidates E keyword pre (trace w ++ [EvTrendReq])))
        as (m2 & Hm2 & Hev2 & Hp2).
      rewrite Hm2, Hm1.
      assert (Hlen : (length pre + S (length post) = 3)%nat).
      { apply (f_equal length) in Htfs. rewrite length_app in Htfs.
        simpl in Htfs. lia. }
      exists df, tf, true, (m1 ++ m2), (S (length pre)).
      split; [by rewrite <- !app_assoc|].
      split; [by apply Forall_app|]. split; [lia|].
      split.
      { rewrite payloads_app, Hp1, Hp2, Htfs.
        replace (pre ++ tf :: post) with ((pre ++ [tf]) ++ post)
          by (by rewrite <- app_assoc).
        rewrite take_app_length' by (rewrite length_app; simpl; lia).
        by rewrite fmap_app. }
      split; [|done]. intros _. split; [done|]. split; [lia|].
      rewrite Htfs. replace (S (length pre) - 1)%nat with (length pre) by lia.
      by rewrite list_lookup_middle.
    + rewrite get_trends_data_rejected by done. rewrite demo_fallback_run.
      cbn [trace last_request_time]. unfold demo_trace.
      destruct (after_candidates_events keyword timeframes (trace w ++ [EvTrendReq]))
        as (m1 & -> & Hev1 & Hp1).
      eexists _, _, _, _, 3%nat. split; [by rewrite <- !app_assoc|].
      split; [apply Forall_app; split; [exact Hev1 | apply generator_events]|].
      split; [lia|].
      split; [by rewrite payloads_app, Hp1, (proj2 (generator_events _)), app_nil_r|].
      split; [done|]. intros _. split; [done|]. split; [by right | by eexists].
Qed.

(** The chart block: its calls, and the one [savefig] of a block that
    ran to its end. *)
Lemma save_chart_events (data : frame) (keyword : string) (real : bool)
      (w w' : world T) (r : result unit) :
  save_chart E data keyword real w = (r, w') ->
  exists evs,
    trace w' = trace w ++ evs /\
    Forall (fun e => chart_event e = true) evs /\
    (savefigs evs = [] \/ savefigs evs = ["static/chart.png"]) /\
    (r = Ok tt -> savefigs evs = ["static/chart.png"]).
Proof.
  unfold save_chart, os_makedirs, plt_plot, plt_savefig, plt_close,
    bind, emit, may_raise, lift. cbn [trace last_request_time].
  repeat match goal with
         | |- context [match ?o with _ => _ end] =>
             match type of o with
             | option exn => destruct o
             | result column => destruct o
             end
         end;
    intros [= <- <-]; cbn [trace];
    repeat first [rewrite <- app_assoc | progress cbn [app]];
    (eexists; split; [reflexivity|]);
    (split; [by repeat constructor|]);
    (split; [by (left + right)|]); done.
Qed.

Lemma wait_events_sleeps (w : world T) :
  sleeps (EvTime :: wait_events E w) =
  if num_lt (elapsed E w) (of_int 10)
  then [num_sub (of_int 10) (elapsed E w)] else [].
Proof. unfold wait_events. by destruct (num_lt _ _). Qed.

Lemma wait_events_quiet (w : world T) :
  payloads (EvTime :: wait_events E w) = [] /\
  savefigs (EvTime :: wait_events E w) = [].
Proof. unfold wait_events. by destruct (num_lt _ _). Qed.

Ltac finish_page :=
  repeat (split; [by eauto|]);
  try (split; [by intros [? [=]]|]);
  try (intros Hmsg;
       first [discriminate Hmsg | by apply processing_not_no_data in Hmsg]);
  try done.

(** A run of the page handler that gets past validation. *)
Lemma index_trace (req : request) (w : world T) :
  method req = "POST" ->
  strip (form_get req "keyword") ≠ "" ->
  exists page w' more charts stamp n,
    index E req w = (Ok page, w') /\
    trace w' = trace w ++ (EvTime :: wait_events E w) ++
               EvTrendReq :: more ++ charts ++ stamp /\
    Forall (fun e => after_client_event e = true) more /\
    Forall (fun e => chart_event e = true) charts /\
    (savefigs charts = [] \/ savefigs charts = ["static/chart.png"]) /\
    (n <= 3)%nat /\
    payloads more = (fun tf => (strip (form_get req "keyword"), tf)) <$> take n timeframes /\
    (stamp = [] \/ stamp = [EvTime]) /\
    (results page = None \/ error page = None) /\
    (is_Some (results page) \/ is_Some (error page)) /\
    (is_Some (results page) -> savefigs charts = ["static/chart.png"]) /\
    (error page = Some (no_data_message (strip (form_get req "keyword"))) -> charts = []).
Proof.
  intros Hpost Hne. set (keyword := strip (form_get req "keyword")) in *.
  destruct (get_trends_data_events keyword (after_wait E w))
    as (data & label & real & more & n & Hfetch & Hmore & Hn & Hpay & _).
  rewrite (index_run E req w _ keyword data label real Hpost eq_refl Hne Hfetch).
  cbn [after_wait trace last_request_time].
  destruct (guard keyword data).
  - destruct (save_chart E data keyword real _) as [r w3] eqn:Hchart.
    pose proof (save_chart_events _ _ _ _ _ _ Hchart) as (evs & Ht3 & Hevs & Hsf & Hsaved).
    cbn [trace] in Ht3.
    destruct r as [[]|e].
    + destruct (table_html E _ _) as [table|e].
      * exists (Page (Some (if negb real then demo_notice +:+ table else table)) None),
          (stamped E w3), more, evs, [EvTime], n.
        split; [done|]. cbn [stamped trace]. rewrite Ht3.
        split; [by rewrite <- !app_assoc|]. cbn [results error].
        finish_page.
      * exists (Page None (Some (processing_error_message e))), w3, more, evs, [], n.
        split; [done|]. rewrite Ht3.
        split; [by rewrite app_nil_r, <- !app_assoc|]. cbn [results error].
        finish_page.
    + exists (Page None (Some (processing_error_message e))), w3, more, evs, [], n.
      split; [done|]. rewrite Ht3.
      split; [by rewrite app_nil_r, <- !app_assoc|]. cbn [results error].
      finish_page.
  - eexists (Page None (Some (no_data_message keyword))), _, more, [], [EvTime], n.
    split; [done|]. cbn [stamped trace].
    split; [by rewrite <- !app_assoc|]. cbn [results error].
    finish_page.
Qed.

Ltac finish_json :=
  repeat (split; [by eauto|]);
  first [by auto | by right | by left].

(** A run of the analyze handler that gets past validation. *)
Lemma analyze_trace (req : request) (w : world T) :
  strip (form_get req "keyword") ≠ "" ->
  exists body status w' more charts stamp n,
    analyze E req w = (Ok (body, status), w') /\
    trace w' = trace w ++ (EvTime :: wait_events E w) ++
               EvTrendReq :: more ++ charts ++ stamp /\
    Forall (fun e => after_client_event e = true) more /\
    Forall (fun e => chart_event e = true) charts /\
    (savefigs charts = [] \/ savefigs charts = ["static/chart.png"]) /\
    (n <= 3)%nat /\
    payloads more = (fun tf => (strip (form_get req "keyword"), tf)) <$> take n timeframes /\
    (stamp = [] \/ stamp = [EvTime]) /\
    match body with
    | JsonResult _ _ _ _ _ => status = 200 /\ savefigs charts = ["static/chart.png"]
    | JsonError _ => status = 404 /\ charts = [] \/ status = 500
    end.
Proof.
  intros Hne. set (keyword := strip (form_get req "keyword")) in *.
  destruct (get_trends_data_events keyword (after_wait E w))
    as (data & label & real & more & n & Hfetch & Hmore & Hn & Hpay & _).
  rewrite (analyze_run E req w _ keyword data label real eq_refl Hne Hfetch).
  cbn [after_wait trace last_request_time].
  destruct (guard keyword data).
  - destruct (save_chart E data keyword real _) as [r w3] eqn:Hchart.
    pose proof (save_chart_events _ _ _ _ _ _ Hchart) as (evs & Ht3 & Hevs & Hsf & Hsaved).
    cbn [trace] in Ht3.
    destruct r as [[]|e].
    + destruct (index_dates E data) as [dates|e];
        [destruct (getitem data keyword) as [col|e]|].
      * eexists _, _, (stamped E w3), more, evs, [EvTime], n.
        split; [done|]. cbn [stamped trace]. rewrite Ht3.
        split; [by rewrite <- !app_assoc|].
        finish_json.
      * eexists _, _, w3, more, evs, [], n.
        split; [done|]. rewrite Ht3.
        split; [by rewrite app_nil_r, <- !app_assoc|].
        finish_json.
      * eexists _, _, w3, more, evs, [], n.
        split; [done|]. rewrite Ht3.
        split; [by rewrite app_nil_r, <- !app_assoc|].
        finish_json.
    + eexists _, _, w3, more, evs, [], n.
      split; [done|]. rewrite Ht3.
      split; [by rewrite app_nil_r, <- !app_assoc|].
      finish_json.
  - eexists _, _, _, more, [], [], n.
    split; [done|]. cbn [trace].
    split; [by rewrite app_nil_r, <- !app_assoc|].
    finish_json.
Qed.

End TraceFacts.

(** ** The fetcher, further *)

(** X1.  One fetch constructs the provider client exactly once, as its
    first call; after that it only queries the provider and, on the
    fallback path, reads the clock and draws random numbers.  Its
    [build_payload] calls are those for the first [n] of the three time
    frames, in order and with the given keyword, for some [n] up to 3.
    It never sleeps, never saves a chart, and leaves
    [last_request_time] as it was. *)
Theorem fetch_calls {T} {num : PyNumber T}
        (E : env T) (keyword : string) (w : world T) :
  exists data label real more n,
    get_trends_data E keyword w =
    (Ok (data, label, real),
     World (last_request_time w) (trace w ++ EvTrendReq :: more)) /\
    Forall (fun e => after_client_event e = true) more /\
    (n <= 3)%nat /\
    payloads more = (fun tf => (keyword, tf)) <$> take n timeframes /\
    sleeps more = [] /\ savefigs more = [].
Proof.
  destruct (get_trends_data_events E keyword w)
    as (data & label & real & more & n & Hrun & Hmore & Hn & Hpay & _).
  exists data, label, real, more, n.
  destruct (after_client_quiet more Hmore) as [Hs Hf]. done.
Qed.

(** X2.  The flag and the label of a fetch agree: a result flagged as
    real carries the label of one of the three time frames and a frame
    that was accepted, so that the guard of the handlers passes on it; a
    result flagged as synthetic carries the demo label. *)
Theorem fetch_result_consistent {T} {num : PyNumber T}
        (E : env T) (keyword : string) (w : world T) :
  exists data label real w',
    get_trends_data E keyword w = (Ok (data, label, real), w') /\
    if real
    then label ∈ timeframes /\ accepted E keyword data /\ guard keyword data = true
    else label = "demo (last 3 months)".
Proof.
  destruct (get_trends_data_events E keyword w)
    as (data & label & real & more & n & Hrun & _ & _ & _ & Hreal & Hdemo).
  exists data, label, real. eexists. split; [exact Hrun|].
  destruct real.
  - destruct (Hreal eq_refl) as (Hacc & _ & Hlabel).
    split; [by eapply list_elem_of_lookup_2|]. split; [done|].
    by apply (accepted_guard E).
  - by destruct (Hdemo eq_refl) as (-> & _).
Qed.

(** ** The handlers, further *)

(** X3.  The page handler never raises.  Its page never has both
    results and an error; on a POST it has one of them, on any other
    method it has neither and the world is unchanged. *)
Theorem index_always_answers {T} {num : PyNumber T}
        (E : env T) (req : request) (w : world T) :
  exists page w',
    index E req w = (Ok page, w') /\
    (results page = None \/ error page = None) /\
    if bool_decide (method req = "POST")
    then is_Some (results page) \/ is_Some (error page)
    else page = Page None None /\ w' = w.
Proof.
  case_bool_decide as Hpost.
  - destruct (decide (strip (form_get req "keyword") = "")) as [Hempty|Hne].
    + exists (Page None (Some empty_keyword_message)), w.
      unfold index. rewrite (bool_decide_eq_true_2 _ Hpost), Hempty.
      split; [done|]. split; [by left | by right].
    + destruct (index_trace E req w Hpost Hne)
        as (page & w' & _ & _ & _ & _ & Hrun & _ & _ & _ & _ & _ & _ & _ & Hone & Hsome & _).
      by exists page, w'.
  - exists (Page None None), w. unfold index.
    rewrite (bool_decide_eq_false_2 _ Hpost). split; [done|]. split; [by left | done].
Qed.

(** X4.  The analyze handler never raises, and its status goes with its
    body: a result body comes with 200, an error body with 400, 404 or
    500. *)
Theorem analyze_always_answers {T} {num : PyNumber T}
        (E : env T) (req : request) (w : world T) :
  exists body status w',
    analyze E req w = (Ok (body, status), w') /\
    match body with
    | JsonResult _ _ _ _ _ => status = 200
    | JsonError _ => status = 400 \/ status = 404 \/ status = 500
    end.
Proof.
  destruct (decide (strip (form_get req "keyword") = "")) as [Hempty|Hne].
  - exists (JsonError missing_keyword_message), 400, w.
    unfold analyze, try_except. rewrite Hempty. split; [done | by left].
  - destruct (analyze_trace E req w Hne)
      as (body & status & w' & more & charts & stamp & n & Hrun & _ & _ & _ & _ & _ & _ & _ & Hbody).
    exists body, status, w'. split; [done|].
    destruct body; [exact (proj1 Hbody)|].
    destruct Hbody as [[Hs _] | Hs]; auto.
Qed.

(** What the three projections see of a handler run past validation. *)
Lemma run_projections {T} {num : PyNumber T} (E : env T) (w : world T)
      (more charts stamp : list (event T)) :
  Forall (fun e => after_client_event e = true) more ->
  Forall (fun e => chart_event e = true) charts ->
  stamp = [] \/ stamp = [EvTime] ->
  let t := trace w ++ (EvTime :: wait_events E w) ++
           EvTrendReq :: more ++ charts ++ stamp in
  sleeps t = sleeps (trace w) ++
             (if num_lt (elapsed E w) (of_int 10)
              then [num_sub (of_int 10) (elapsed E w)] else []) /\
  payloads t = payloads (trace w) ++ payloads more /\
  savefigs t = savefigs (trace w) ++ savefigs charts.
Proof.
  intros Hmore Hcharts Hstamp t. unfold t.
  destruct (after_client_quiet more Hmore) as [Hs1 Hf1].
  destruct (chart_quiet charts Hcharts) as [Hs2 Hp2].
  destruct (wait_events_quiet E w) as [Hp0 Hf0].
  assert (Hst : sleeps stamp = [] /\ payloads stamp = [] /\ savefigs stamp = [])
    by (by destruct Hstamp as [-> | ->]).
  destruct Hst as (Hs3 & Hp3 & Hf3).
  change (EvTrendReq :: more ++ charts ++ stamp)
    with ([EvTrendReq] ++ more ++ charts ++ stamp).
  rewrite !sleeps_app, !payloads_app, !savefigs_app.
  rewrite wait_events_sleeps, Hp0, Hf0, Hs1, Hf1, Hs2, Hp2, Hs3, Hp3, Hf3.
  cbn [sleeps payloads savefigs omap app]. rewrite !app_nil_r. done.
Qed.

(** X5.  A handler run sleeps at most once: the only sleep is the rate
    limiter's, of [10 - elapsed] when [elapsed < 10], made by a POST on
    the page handler or a request to the analyze handler whose keyword
    is not empty after stripping.  Neither the fetch nor the chart block
    sleeps. *)
Theorem handlers_sleep_once {T} {num : PyNumber T}
        (E : env T) (req : request) (w : world T) :
  let elapsed := num_sub (time_returns E (trace w ++ [EvTime])) (last_request_time w) in
  let waited := if num_lt elapsed (of_int 10)
                then [num_sub (of_int 10) elapsed] else [] in
  let valid := negb (bool_decide (strip (form_get req "keyword") = "")) in
  sleeps (trace (snd (index E req w)))
  = sleeps (trace w) ++
    (if bool_decide (method req = "POST") && valid then waited else []) /\
  sleeps (trace (snd (analyze E req w)))
  = sleeps (trace w) ++ (if valid then waited else []).
Proof.
  intros elapsed0 waited valid. unfold valid.
  destruct (decide (strip (form_get req "keyword") = "")) as [Hkw|Hkw];
    [rewrite (bool_decide_eq_true_2 _ Hkw) | rewrite (bool_decide_eq_false_2 _ Hkw)];
    cbn [negb].
  - rewrite andb_false_r, app_nil_r. split.
    + unfold index. rewrite Hkw. by destruct (bool_decide (method req = "POST")).
    + unfold analyze, try_except. by rewrite Hkw.
  - split.
    + case_bool_decide as Hpost; cbn [andb].
      * destruct (index_trace E req w Hpost Hkw)
          as (page & w' & more & charts & stamp & n & Hrun & Htrace & Hmore
              & Hcharts & _ & _ & _ & Hstamp & _).
        rewrite Hrun. cbn [snd]. rewrite Htrace.
        apply (run_projections E w more charts stamp Hmore Hcharts Hstamp).
      * unfold index. rewrite (bool_decide_eq_false_2 _ Hpost).
        cbn [ret snd]. by rewrite app_nil_r.
    + destruct (analyze_trace E req w Hkw)
        as (body & status & w' & more & charts & stamp & n & Hrun & Htrace & Hmore
            & Hcharts & _ & _ & _ & Hstamp & _).
      rewrite Hrun. cbn [snd]. rewrite Htrace.
      apply (run_projections E w more charts stamp Hmore Hcharts Hstamp).
Qed.


(** X7.  The analyze handler calls [plt.savefig] at most once per
    request and only with the path "static/chart.png": exactly once when
    it answers 200, not at all when it answers 400 or 404. *)
Theorem analyze_saves_chart_on_success {T} {num : PyNumber T}
        (E : env T) (req : request) (w : world T) :
  exists body status w' saved,
    analyze E req w = (Ok (body, status), w') /\
    savefigs (trace w') = savefigs (trace w) ++ saved /\
    match status with
    | 200 => saved = ["static/chart.png"]
    | 400 | 404 => saved = []
    | _ => saved = [] \/ saved = ["static/chart.png"]
    end.
Proof.
  destruct (decide (strip (form_get req "keyword") = "")) as [Hkw|Hkw].
  - exists (JsonError missing_keyword_message), 400, w, [].
    unfold analyze, try_except. rewrite Hkw. by rewrite app_nil_r.
  - destruct (analyze_trace E req w Hkw)
      as (body & status & w' & more & charts & stamp & n & Hrun & Htrace & Hmore
          & Hcharts & Hsf & _ & _ & Hstamp & Hbody).
    exists body, status, w', (savefigs charts). split; [done|].
    rewrite Htrace.
    split; [apply (run_projections E w more charts stamp Hmore Hcharts Hstamp)|].
    destruct body.
    + by destruct Hbody as [-> ->].
    + destruct Hbody as [[-> ->] | ->]; [done | exact Hsf].
Qed.

(** X8.  The page handler shows results only after the chart was saved:
    a page with results comes from a run with exactly one [plt.savefig]
    call, at "static/chart.png"; a page with the no-data message from a
    run with none. *)
Theorem index_saves_chart_before_results {T} {num : PyNumber T}
        (E : env T) (req : request) (w : world T) :
  exists page w' saved,
    index E req w = (Ok page, w') /\
    savefigs (trace w') = savefigs (trace w) ++ saved /\
    (saved = [] \/ saved = ["static/chart.png"]) /\
    match results page with
    | Some _ => saved = ["static/chart.png"]
    | None =>
        if bool_decide (error page
                        = Some (no_data_message (strip (form_get req "keyword"))))
        then saved = [] else True
    end.
Proof.
  destruct (decide (method req = "POST")) as [Hpost|Hget].
  2: { exists (Page None None), w, []. unfold index.
       rewrite (bool_decide_eq_false_2 _ Hget), app_nil_r.
       cbn [results error]. rewrite bool_decide_eq_false_2 by done. auto. }
  destruct (decide (strip (form_get req "keyword") = "")) as [Hkw|Hkw].
  { exists (Page None (Some empty_keyword_message)), w, []. unfold index.
    rewrite (bool_decide_eq_true_2 _ Hpost), Hkw, app_nil_r.
    cbn [results error]. split; [done|]. split; [done|]. split; [by left|].
    by case_bool_decide. }
  destruct (index_trace E req w Hpost Hkw)
    as (page & w' & more & charts & stamp & n & Hrun & Htrace & Hmore
        & Hcharts & Hsf & _ & _ & Hstamp & _ & _ & Hres & Hnodata).
  exists page, w', (savefigs charts). split; [done|]. rewrite Htrace.
  split; [apply (run_projections E w more charts stamp Hmore Hcharts Hstamp)|].
  split; [exact Hsf|].
  destruct (results page) as [r|].
  - apply Hres. by eexists.
  - case_bool_decide as Hmsg; [|done]. by rewrite (Hnodata Hmsg).
Qed.

(** ** The generator, further *)

Lemma demo_series_exact {T} (E : env T) (h : list (event T)) (i : nat) (v : Z) :
  demo_series E h !! i = Some v ->
  40 <= v <= 100 /\ exists r, -10 <= r <= 10 /\ v = pattern_at i + r.
Proof.
  intros Hv.
  assert (Hi : (i < 91)%nat).
  { rewrite <- (demo_series_length E h). by eapply lookup_lt_Some. }
  destruct (demo_series_lookup E h i Hi) as (r & Hr & Hlook).
  rewrite Hlook in Hv. injection Hv as <-.
  pose proof (pattern_at_bounds i). split; [lia|]. exists r. split; [done | lia].
Qed.

(** X9.  For every keyword but ['date'], each of the 91 generated values
    is the base pattern value of its day plus a variation between -10
    and 10, hence between 40 and 100: the floor [max(10, ...)] of the
    source never takes effect. *)
Theorem demo_values_between_40_and_100 {T} {num : PyNumber T}
        (E : env T) (keyword : string) (w : world T) :
  keyword ≠ "date" ->
  exists (dates values : list Z) (w' : world T),
    generate_demo_data E keyword w =
    (Ok (Frame (Some "date") (Dates dates)
               {[keyword := Numbers (Some <$> values)]}), w') /\
    length values = 91%nat /\
    forall i v, values !! i = Some v ->
                40 <= v <= 100 /\ exists r, -10 <= r <= 10 /\ v = pattern_at i + r.
Proof.
  intros Hne. rewrite generate_demo_data_run. unfold demo_data.
  rewrite decide_False by done.
  exists (demo_dates E (trace w)), (demo_series E (trace w)). eexists.
  split; [reflexivity|]. split; [apply demo_series_length|].
  apply demo_series_exact.
Qed.

Lemma demo_values_between_40_and_100_witness :
  exists (dates values : list Z) (w' : world Z),
    generate_demo_data offline "python" initial_world =
    (Ok (Frame (Some "date") (Dates dates)
               {["python" := Numbers (Some <$> values)]}), w') /\
    length values = 91%nat /\
    forall i v, values !! i = Some v ->
                40 <= v <= 100 /\ exists r, -10 <= r <= 10 /\ v = pattern_at i + r.
Proof.
  apply (demo_values_between_40_and_100 offline "python" initial_world).
  discriminate.
Defined.

(** X10.  For every keyword, ['date'] included, one call of the
    generator reads the clock once, then calls [random.randint(-10, 10)]
    exactly 91 times, calls nothing else and leaves
    [last_request_time] as it was. *)
Theorem generator_calls {T} {num : PyNumber T}
        (E : env T) (keyword : string) (w : world T) :
  snd (generate_demo_data E keyword w) =
  World (last_request_time w)
        (trace w ++ EvDatetimeNow :: replicate 91 (EvRandint (-10) 10)).
Proof.
  rewrite generate_demo_data_run. cbn [snd]. unfold demo_trace.
  by rewrite demo_dates_length.
Qed.

(** X11.  For every keyword but ['date'], the index of the generated
    frame is named ['date'] and its [i]-th entry is the clock reading
    minus [90 - i] days: the first date is 90 days before now, the last
    one is now. *)
Theorem demo_dates_exact {T} {num : PyNumber T}
        (E : env T) (keyword : string) (w : world T) :
  keyword ≠ "date" ->
  exists (data : frame) (dates : list Z) (w' : world T),
    generate_demo_data E keyword w = (Ok data, w') /\
    index_name data = Some "date" /\
    df_index data = Dates dates /\
    length dates = 91%nat /\
    forall i : nat, (i < 91)%nat ->
      dates !! i = Some (datetime_now_returns E (trace w ++ [EvDatetimeNow])
                         - timedelta_days (90 - Z.of_nat i)).
Proof.
  intros Hne. rewrite generate_demo_data_run. unfold demo_data.
  rewrite decide_False by done.
  eexists _, (demo_dates E (trace w)), _. split; [reflexivity|].
  split; [done|]. split; [done|]. split; [apply demo_dates_length|].
  intros i Hi. rewrite demo_dates_lookup by done. f_equal.
  unfold demo_now, timedelta_days. lia.
Qed.

Lemma demo_dates_exact_witness :
  exists (data : frame) (dates : list Z) (w' : world Z),
    generate_demo_data offline "python" initial_world = (Ok data, w') /\
    index_name data = Some "date" /\
    df_index data = Dates dates /\
    length dates = 91%nat /\
    forall i : nat, (i < 91)%nat ->
      dates !! i = Some (datetime_now_returns offline
                           (trace initial_world ++ [EvDatetimeNow])
                         - timedelta_days (90 - Z.of_nat i)).
Proof.
  apply (demo_dates_exact offline "python" initial_world). discriminate.
Defined.

(** X12.  The keyword does not reach the numbers: two keywords other
    than ['date'], run in the same world, get the same dates and the
    same values, under their own column name, and leave the same
    world. *)
Theorem demo_keywords_share_series {T} {num : PyNumber T}
        (E : env T) (k1 k2 : string) (w : world T) :
  k1 ≠ "date" -> k2 ≠ "date" ->
  exists (dates : list Z) (values : list (option Z)) (w' : world T),
    generate_demo_data E k1 w
    = (Ok (Frame (Some "date") (Dates dates) {[k1 := Numbers values]}), w') /\
    generate_demo_data E k2 w
    = (Ok (Frame (Some "date") (Dates dates) {[k2 := Numbers values]}), w').
Proof.
  intros H1 H2. rewrite !generate_demo_data_run. unfold demo_data.
  rewrite !decide_False by done. by do 3 eexists.
Qed.

Lemma demo_keywords_share_series_witness :
  exists (dates : list Z) (values : list (option Z)) (w' : world Z),
    generate_demo_data offline "python" initial_world
    = (Ok (Frame (Some "date") (Dates dates) {["python" := Numbers values]}), w') /\
    generate_demo_data offline "music" initial_world
    = (Ok (Frame (Some "date") (Dates dates) {["music" := Numbers values]}), w').
Proof.
  apply (demo_keywords_share_series offline "python" "music" initial_world);
    discriminate.
Defined.

(** ** The handlers on the fallback path and on real data *)

Lemma int_values_some (l : list Z) : int_values (Numbers (Some <$> l)) = l.
Proof.
  unfold int_values.
  induction l as [|x l IH]; [done|]. cbn [fmap list_fmap default]. by rewrite IH.
Qed.

(** X13.  When the fetch falls back to synthetic data for a keyword
    other than ['date'] and the chart block runs to its end, the analyze
    handler answers 200 with 91 dates, 91 values between 40 and 100, the
    demo label, the stripped keyword and [is_demo_data] set, and stamps
    [last_request_time]. *)
Theorem analyze_fallback_series {T} {num : PyNumber T}
        (E : env T) (req : request) (w : world T)
        (data : frame) (label : string) (w2 w3 : world T) :
  let keyword := strip (form_get req "keyword") in
  keyword ≠ "" ->
  keyword ≠ "date" ->
  get_trends_data E keyword (after_wait E w) = (Ok (data, label, false), w2) ->
  save_chart E data keyword false w2 = (Ok tt, w3) ->
  exists dates values,
    analyze E req w =
    (Ok (JsonResult dates values "demo (last 3 months)" keyword true, 200),
     stamped E w3) /\
    length dates = 91%nat /\ length values = 91%nat /\
    forall v, v ∈ values -> 40 <= v <= 100.
Proof.
  intros keyword Hne Hdate Hfetch Hchart.
  destruct (get_trends_data_events E keyword (after_wait E w))
    as (data' & label' & real' & more & n & Hrun & _ & _ & _ & _ & Hdemo).
  rewrite Hfetch in Hrun. injection Hrun as <- <- <- _.
  destruct (Hdemo eq_refl) as (Hlabel & _ & h & Hdata).
  rewrite (analyze_run E req w w2 keyword data label false eq_refl Hne Hfetch).
  rewrite Hdata, demo_guard_passes by done. rewrite <- Hdata, Hchart.
  rewrite Hdata, Hlabel. unfold demo_data, index_dates, getitem.
  rewrite decide_False by done. cbn [df_index columns].
  rewrite lookup_singleton_eq. rewrite int_values_some.
  eexists _, _. split; [reflexivity|].
  split; [by rewrite length_fmap, demo_dates_length|].
  split; [apply demo_series_length|].
  intros v Hv. apply list_elem_of_lookup in Hv as [i Hi].
  by apply demo_series_exact in Hi as [Hrange _].
Qed.

Lemma analyze_fallback_series_witness :
  exists dates values w',
    analyze offline (post "python") initial_world =
    (Ok (JsonResult dates values "demo (last 3 months)" "python" true, 200), w') /\
    length dates = 91%nat /\ length values = 91%nat /\
    forall v, v ∈ values -> 40 <= v <= 100.
Proof.
  assert (Hne : strip (form_get (post "python") "keyword") ≠ "")
    by (vm_compute; discriminate).
  assert (Hdate : strip (form_get (post "python") "keyword") ≠ "date")
    by (vm_compute; discriminate).
  destruct (get_trends_data offline "python" (after_wait offline initial_world))
    as [[[[data label] real]|e] w2] eqn:Hfetch; [|vm_compute in Hfetch; discriminate].
  assert (Hreal : real = false).
  { pose proof Hfetch as Hf. vm_compute in Hf. by injection Hf as _ _ <- _. }
  subst real.
  destruct (save_chart offline data "python" false w2) as [[[]|e] w3] eqn:Hchart.
  - destruct (analyze_fallback_series offline (post "python") initial_world
                data label w2 w3 Hne Hdate Hfetch Hchart)
      as (dates & values & H).
    by exists dates, values, (stamped offline w3).
  - exfalso. vm_compute in Hfetch. injection Hfetch as <- _ <-.
    vm_compute in Hchart. discriminate Hchart.
Defined.

(** X14.  When the fetch falls back to synthetic data for a keyword
    other than ['date'], the chart block runs to its end and the table
    is rendered, the page handler shows the demo notice followed by the
    table, no error, and stamps [last_request_time]; the table is made
    from the last ten of the 91 days. *)
Theorem index_fallback_page {T} {num : PyNumber T}
        (E : env T) (req : request) (w : world T)
        (data : frame) (label table : string) (w2 w3 : world T) :
  let keyword := strip (form_get req "keyword") in
  method req = "POST" ->
  keyword ≠ "" ->
  keyword ≠ "date" ->
  get_trends_data E keyword (after_wait E w) = (Ok (data, label, false), w2) ->
  save_chart E data keyword false w2 = (Ok tt, w3) ->
  table_html E (tail 10 data) keyword = Ok table ->
  index E req w = (Ok (Page (Some (demo_notice +:+ table)) None), stamped E w3) /\
  exists dates values,
    data = Frame (Some "date") (Dates dates) {[keyword := Numbers (Some <$> values)]} /\
    tail 10 data = Frame (Some "date") (Dates (drop 81 dates))
                         {[keyword := Numbers (Some <$> drop 81 values)]} /\
    length (drop 81 dates) = 10%nat /\ length (drop 81 values) = 10%nat.
Proof.
  intros keyword Hpost Hne Hdate Hfetch Hchart Htable.
  destruct (get_trends_data_events E keyword (after_wait E w))
    as (data' & label' & real' & more & n & Hrun & _ & _ & _ & _ & Hdemo).
  rewrite Hfetch in Hrun. injection Hrun as <- <- <- _.
  destruct (Hdemo eq_refl) as (Hlabel & _ & h & Hdata).
  split.
  - rewrite (index_run E req w w2 keyword data label false Hpost eq_refl Hne Hfetch).
    rewrite Hdata, demo_guard_passes by done. rewrite <- Hdata, Hchart, Htable.
    reflexivity.
  - exists (demo_dates E h), (demo_series E h).
    rewrite Hdata. unfold demo_data. rewrite decide_False by done.
    split; [done|]. unfold tail. cbn [index_name df_index columns col_tail].
    rewrite map_fmap_singleton. cbn [col_tail].
    rewrite length_fmap, demo_dates_length, demo_series_length.
    change (91 - 10)%nat with 81%nat. rewrite fmap_drop.
    split; [done|].
    by rewrite !length_drop, demo_dates_length, demo_series_length.
Qed.

Lemma index_fallback_page_witness :
  exists w',
    index offline (post "python") initial_world
    = (Ok (Page (Some (demo_notice +:+ "<table></table>")) None), w').
Proof.
  assert (Hne : strip (form_get (post "python") "keyword") ≠ "")
    by (vm_compute; discriminate).
  assert (Hdate : strip (form_get (post "python") "keyword") ≠ "date")
    by (vm_compute; discriminate).
  destruct (get_trends_data offline "python" (after_wait offline initial_world))
    as [[[[data label] real]|e] w2] eqn:Hfetch; [|vm_compute in Hfetch; discriminate].
  assert (Hreal : real = false).
  { pose proof Hfetch as Hf. vm_compute in Hf. by injection Hf as _ _ <- _. }
  subst real.
  destruct (save_chart offline data "python" false w2) as [[[]|e] w3] eqn:Hchart.
  - exists (stamped offline w3).
    exact (proj1 (index_fallback_page offline (post "python") initial_world
                    data label "<table></table>" w2 w3
                    eq_refl Hne Hdate Hfetch Hchart eq_refl)).
  - exfalso. vm_compute in Hfetch. injection Hfetch as <- _ <-.
    vm_compute in Hchart. discriminate Hchart.
Defined.

(** X15.  A 200 answer of the analyze handler carries the stripped
    keyword; when it is flagged as demo data its label is the demo
    label, and when it is not, its label is one of the three time frames
    and its values are those of the keyword's column (NaN turned into
    0), a column whose [sum()] is positive. *)
Theorem analyze_result_consistent {T} {num : PyNumber T}
        (E : env T) (req : request) (w : world T) :
  exists body status w',
    analyze E req w = (Ok (body, status), w') /\
    match body with
    | JsonResult dates values label keyword is_demo_data =>
        keyword = strip (form_get req "keyword") /\
        if is_demo_data
        then label = "demo (last 3 months)"
        else label ∈ timeframes /\
             exists col sum,
               values = int_values col /\
               col_sum (float64_sum E) col = Ok sum /\ 0 < sum
    | JsonError _ => True
    end.
Proof.
  destruct (decide (strip (form_get req "keyword") = "")) as [Hkw|Hkw].
  { exists (JsonError missing_keyword_message), 400, w.
    unfold analyze, try_except. by rewrite Hkw. }
  set (keyword := strip (form_get req "keyword")) in *.
  destruct (get_trends_data_events E keyword (after_wait E w))
    as (data & label & real & more & n & Hfetch & _ & _ & _ & Hreal & Hdemo).
  rewrite (analyze_run E req w _ keyword data label real eq_refl Hkw Hfetch).
  destruct (guard keyword data); [|by eexists _, _, _].
  destruct (save_chart E data keyword real _) as [[[]|e] w3]; [|by eexists _, _, _].
  destruct (index_dates E data) as [dates|e]; [|by eexists _, _, _].
  destruct (getitem data keyword) as [col|e] eqn:Hcol; [|by eexists _, _, _].
  eexists _, _, _. split; [reflexivity|]. split; [done|].
  destruct real; cbn [negb].
  - destruct (Hreal eq_refl) as ((_ & _ & col' & sum & Hcol' & Hsum & Hpos) & _ & Hlabel).
    split; [by eapply list_elem_of_lookup_2|].
    unfold getitem in Hcol. rewrite Hcol' in Hcol. injection Hcol as <-.
    by exists col', sum.
  - by destruct (Hdemo eq_refl) as (-> & _).
Qed.

(** When nothing overflows, the total of a column is the exact sum. *)
Lemma col_sum_exact (fsum : list (option Z) -> Z) (vs : list (option Z)) :
  (if notna vs then - 2 ^ 63 <= sum_skipna vs < 2 ^ 63
   else abs_sum vs <= 2 ^ 53) ->
  col_sum fsum (Numbers vs) = Ok (sum_skipna vs).
Proof.
  unfold col_sum. destruct (notna vs); intros Hrange.
  - f_equal. unfold int64_wrap.
    rewrite Z.mod_small by lia. lia.
  - destruct (Z.leb_spec (abs_sum vs) (2 ^ 53)); [done | lia].
Qed.

(** ** The rate limiter on a clock that advances *)

Lemma slept_app (h1 h2 : list (event Z)) : slept (h1 ++ h2) = slept h1 + slept h2.
Proof.
  unfold slept. induction h1 as [|e h1 IH]; [done|].
  simpl. rewrite IH. destruct e; lia.
Qed.

(** X16.  With seconds as integers, on a clock that does not run
    backwards between two readings and that a sleep of [d] advances by
    at least [d]: for a keyword that is not empty after stripping, at
    the point where a handler constructs the provider client the clock
    is at least 10 seconds past [last_request_time]. *)
Theorem fetch_starts_ten_seconds_after_stamp
        (E : env Z) (req : request) (w : world Z) :
  (forall h, time_returns E (h ++ [EvTime])
             <= time_returns E ((h ++ [EvTime]) ++ [EvTime])) ->
  (forall h d, 0 <= d ->
     time_returns E (h ++ [EvTime]) + d
     <= time_returns E ((h ++ [EvTime; EvSleep d]) ++ [EvTime])) ->
  strip (form_get req "keyword") ≠ "" ->
  let start := trace (after_wait E w) in
  last_request_time w + 10 <= time_returns E (start ++ [EvTime]) /\
  (method req = "POST" ->
   exists rest, trace (snd (index E req w)) = start ++ EvTrendReq :: rest) /\
  (exists rest, trace (snd (analyze E req w)) = start ++ EvTrendReq :: rest).
Proof.
  intros Hmono Hsleep Hkw start. split; [|split].
  - unfold start, after_wait, wait_events, elapsed. cbn [trace num_lt num_sub of_int Z_number].
    specialize (Hmono (trace w)).
    destruct (Z.ltb_spec (time_returns E (trace w ++ [EvTime]) - last_request_time w) 10)
      as [Hlt|Hge].
    + specialize (Hsleep (trace w)
                    (10 - (time_returns E (trace w ++ [EvTime]) - last_request_time w))).
      lia.
    + lia.
  - intros Hpost.
    destruct (index_trace E req w Hpost Hkw)
      as (page & w' & more & charts & stamp & n & Hrun & Htrace & _).
    rewrite Hrun. cbn [snd]. rewrite Htrace. unfold start. cbn [after_wait trace].
    rewrite app_assoc. by eexists.
  - destruct (analyze_trace E req w Hkw)
      as (body & status & w' & more & charts & stamp & n & Hrun & Htrace & _).
    rewrite Hrun. cbn [snd]. rewrite Htrace. unfold start. cbn [after_wait trace].
    rewrite app_assoc. by eexists.
Qed.

Lemma fetch_starts_ten_seconds_after_stamp_witness :
  1005 <= time_returns ticking (trace (after_wait ticking (World 995 [])) ++ [EvTime]) /\
  (exists rest, trace (snd (index ticking (post "python") (World 995 [])))
                = trace (after_wait ticking (World 995 [])) ++ EvTrendReq :: rest) /\
  (exists rest, trace (snd (analyze ticking (post "python") (World 995 [])))
                = trace (after_wait ticking (World 995 [])) ++ EvTrendReq :: rest).
Proof.
  assert (Hmono : forall h, time_returns ticking (h ++ [EvTime])
                            <= time_returns ticking ((h ++ [EvTime]) ++ [EvTime])).
  { intros h. cbn [time_returns ticking]. rewrite !slept_app, !length_app.
    cbn [slept foldr length]. lia. }
  assert (Hsleep : forall h d, 0 <= d ->
             time_returns ticking (h ++ [EvTime]) + d
             <= time_returns ticking ((h ++ [EvTime; EvSleep d]) ++ [EvTime])).
  { intros h d Hd. cbn [time_returns ticking]. rewrite !slept_app, !length_app.
    cbn [slept foldr length]. lia. }
  assert (Hkw : strip (form_get (post "python") "keyword") ≠ "")
    by (vm_compute; discriminate).
  destruct (fetch_starts_ten_seconds_after_stamp ticking (post "python") (World 995 [])
              Hmono Hsleep Hkw) as (Hten & Hindex & Hanalyze).
  split; [exact Hten|]. split; [exact (Hindex eq_refl) | exact Hanalyze].
Defined.

(** ** The keyword ['date'] in the handlers *)

(** X17.  With the keyword ['date'] and a fetch that fell back to
    synthetic data, the guard of the handlers fails: the analyze handler
    answers 404 and returns before it stamps [last_request_time], which
    keeps its value; the page handler shows the no-data message and
    does stamp it. *)
Theorem date_keyword_fallback_not_found {T} {num : PyNumber T}
        (E : env T) (req : request) (w : world T)
        (data : frame) (label : string) (w2 : world T) :
  strip (form_get req "keyword") = "date" ->
  get_trends_data E "date" (after_wait E w) = (Ok (data, label, false), w2) ->
  analyze E req w = (Ok (JsonError (not_found_message "date"), 404), w2) /\
  last_request_time w2 = last_request_time w /\
  (method req = "POST" ->
   index E req w = (Ok (Page None (Some (no_data_message "date"))), stamped E w2)).
Proof.
  intros Hkw Hfetch.
  assert (Hne : "date" ≠ "") by discriminate.
  destruct (get_trends_data_events E "date" (after_wait E w))
    as (data' & label' & real' & more & n & Hrun & _ & _ & _ & _ & Hdemo).
  rewrite Hfetch in Hrun. injection Hrun as <- <- <- Hw2.
  destruct (Hdemo eq_refl) as (_ & _ & h & Hdata).
  assert (Hguard : guard "date" data = false).
  { rewrite Hdata. unfold demo_data, guard, empty. rewrite decide_True by done.
    cbn [columns]. rewrite (bool_decide_eq_true_2 (∅ = ∅)) by done.
    by rewrite orb_true_r. }
  split; [|split].
  - rewrite (analyze_run E req w w2 "date" data label false Hkw Hne Hfetch).
    by rewrite Hguard.
  - by rewrite Hw2.
  - intros Hpost.
    rewrite (index_run E req w w2 "date" data label false Hpost Hkw Hne Hfetch).
    by rewrite Hguard.
Qed.

Lemma date_keyword_fallback_not_found_witness :
  exists w2,
    analyze offline (post "date") initial_world
    = (Ok (JsonError (not_found_message "date"), 404), w2) /\
    last_request_time w2 = last_request_time initial_world /\
    index offline (post "date") initial_world
    = (Ok (Page None (Some (no_data_message "date"))), stamped offline w2).
Proof.
  destruct (get_trends_data offline "date" (after_wait offline initial_world))
    as [[[[data label] real]|e] w2] eqn:Hfetch; [|vm_compute in Hfetch; discriminate].
  assert (Hreal : real = false).
  { pose proof Hfetch as Hf. vm_compute in Hf. by injection Hf as _ _ <- _. }
  subst real. exists w2.
  destruct (date_keyword_fallback_not_found offline (post "date") initial_world
              data label w2 eq_refl Hfetch) as (Hanalyze & Hstamp & Hindex).
  split; [exact Hanalyze|]. split; [exact Hstamp | exact (Hindex eq_refl)].
Defined.

(** ** The health check *)

(** The health check reads the clock once, answers with that reading
    and leaves [last_request_time] alone. *)
Lemma test_endpoint_run {T} {num : PyNumber T} (E : env T) (w : world T) :
  test_endpoint E w =
  (Ok (Health "success" "API is working correctly"
              (time_returns E (trace w ++ [EvTime]))),
   World (last_request_time w) (trace w ++ [EvTime])).
Proof. reflexivity. Qed.

(** ** Text

    [strip] works on the code points of a text.  For every Python [str],
    given as its code points, stripping its UTF-8 encoding gives the
    encoding of the code points without the leading and the trailing
    white space. *)

Lemma decode_String (b0 : ascii) (rest : string) :
  decode (String b0 rest) =
      let n0 := N_of_ascii b0 in
      if (n0 <? 0x80)%N then n0 :: decode rest
      else if (n0 <? 0xC0)%N then 0xFFFD%N :: decode rest
      else if (n0 <? 0xE0)%N then
        match rest with
        | String b1 r1 => ((n0 mod 32) * 64 + low6 b1)%N :: decode r1
        | _ => 0xFFFD%N :: decode rest
        end
      else if (n0 <? 0xF0)%N then
        match rest with
        | String b1 (String b2 r2) =>
            ((n0 mod 16) * 4096 + low6 b1 * 64 + low6 b2)%N :: decode r2
        | _ => 0xFFFD%N :: decode rest
        end
      else
        match rest with
        | String b1 (String b2 (String b3 r3)) =>
            ((n0 mod 8) * 262144 + low6 b1 * 4096 + low6 b2 * 64 + low6 b3)%N
              :: decode r3
        | _ => 0xFFFD%N :: decode rest
        end.
Proof. reflexivity. Qed.

Lemma mod_add_small (a k m : N) : (a < m)%N -> ((k * m + a) mod m = a)%N.
Proof.
  intros H. rewrite N.add_comm, N.Div0.mod_add. by apply N.mod_small.
Qed.

(** [c = 64 q + r] with [r < 64]. *)
Lemma split64 (c : N) : exists q r, (c = 64 * q + r /\ r < 64 /\ c / 64 = q /\ c mod 64 = r)%N.
Proof.
  exists (c / 64)%N, (c mod 64)%N. split; [apply N.div_mod; lia|].
  split; [apply N.mod_lt; lia | done].
Qed.

Lemma decode_encode_point (c : N) (rest : string) :
  (c < 0x110000)%N ->
  decode (encode_point c +:+ rest) = c :: decode rest.
Proof.
  intros Hc. unfold encode_point, byte.
  destruct (split64 c) as (q1 & r1 & Hc1 & Hr1 & Hq1 & Hm1).
  destruct (split64 q1) as (q2 & r2 & Hc2 & Hr2 & Hq2 & Hm2).
  destruct (split64 q2) as (q3 & r3 & Hc3 & Hr3 & Hq3 & Hm3).
  replace (c / 4096)%N with q2
    by (rewrite <- Hq2, <- Hq1, N.Div0.div_div; done).
  replace (c / 262144)%N with q3
    by (rewrite <- Hq3, <- Hq2, <- Hq1, !N.Div0.div_div; done).
  rewrite Hq1, Hm1, Hm2, Hm3.
  clear Hq1 Hm1 Hq2 Hm2 Hq3 Hm3.
  destruct (N.ltb_spec c 0x80) as [H1|H1].
  - change (decode (String (ascii_of_N c) rest) = c :: decode rest).
    rewrite decode_String. cbv zeta.
    rewrite N_ascii_embedding by lia.
    destruct (N.ltb_spec c 0x80); [done | lia].
  - destruct (N.ltb_spec c 0x800) as [H2|H2].
    + change (decode (String (ascii_of_N (192 + q1))
                        (String (ascii_of_N (128 + r1)) rest))
              = c :: decode rest).
      rewrite decode_String. cbv zeta. unfold low6.
      rewrite !N_ascii_embedding by lia.
      destruct (N.ltb_spec (192 + q1) 0x80); [lia|].
      destruct (N.ltb_spec (192 + q1) 0xC0); [lia|].
      destruct (N.ltb_spec (192 + q1) 0xE0); [|lia].
      f_equal.
      change (192 + q1)%N with (6 * 32 + q1)%N.
      change (128 + r1)%N with (2 * 64 + r1)%N.
      rewrite !mod_add_small by lia. lia.
    + destruct (N.ltb_spec c 0x10000) as [H3|H3].
      * change (decode (String (ascii_of_N (224 + q2))
                          (String (ascii_of_N (128 + r2))
                             (String (ascii_of_N (128 + r1)) rest)))
                = c :: decode rest).
        rewrite decode_String. cbv zeta. unfold low6.
        rewrite !N_ascii_embedding by lia.
        destruct (N.ltb_spec (224 + q2) 0x80); [lia|].
        destruct (N.ltb_spec (224 + q2) 0xC0); [lia|].
        destruct (N.ltb_spec (224 + q2) 0xE0); [lia|].
        destruct (N.ltb_spec (224 + q2) 0xF0); [|lia].
        f_equal.
        change (224 + q2)%N with (14 * 16 + q2)%N.
        change (128 + r2)%N with (2 * 64 + r2)%N.
        change (128 + r1)%N with (2 * 64 + r1)%N.
        rewrite !mod_add_small by lia. lia.
      * change (decode (String (ascii_of_N (240 + q3))
                          (String (ascii_of_N (128 + r3))
                             (String (ascii_of_N (128 + r2))
                                (String (ascii_of_N (128 + r1)) rest))))
                = c :: decode rest).
        rewrite decode_String. cbv zeta. unfold low6.
        rewrite !N_ascii_embedding by lia.
        destruct (N.ltb_spec (240 + q3) 0x80); [lia|].
        destruct (N.ltb_spec (240 + q3) 0xC0); [lia|].
        destruct (N.ltb_spec (240 + q3) 0xE0); [lia|].
        destruct (N.ltb_spec (240 + q3) 0xF0); [lia|].
        f_equal.
        change (240 + q3)%N with (30 * 8 + q3)%N.
        change (128 + r3)%N with (2 * 64 + r3)%N.
        change (128 + r2)%N with (2 * 64 + r2)%N.
        change (128 + r1)%N with (2 * 64 + r1)%N.
        rewrite !mod_add_small by lia. lia.
Qed.

Lemma decode_encode (cs : list N) :
  Forall (fun c => (c < 0x110000)%N) cs -> decode (encode cs) = cs.
Proof.
  induction 1 as [|c cs Hc _ IH]; [done|].
  cbn [encode]. rewrite decode_encode_point by done. by rewrite IH.
Qed.

Lemma strip_encode (cs : list N) :
  Forall (fun c => (c < 0x110000)%N) cs ->
  strip (encode cs) = encode (rstrip_points (lstrip_points cs)).
Proof. intros Hcs. unfold strip. by rewrite decode_encode. Qed.

(** What is left after [strip] neither starts nor ends with white
    space. *)
Lemma lstrip_points_head (cs : list N) (c : N) (rest : list N) :
  lstrip_points cs = c :: rest -> isspace c = false.
Proof.
  induction cs as [|x cs IH]; [done|]. simpl.
  destruct (isspace x) eqn:Hx; [done|]. by intros [= <- _].
Qed.

Lemma rstrip_points_last (cs : list N) (c : N) :
  last (rstrip_points cs) = Some c -> isspace c = false.
Proof.
  unfold rstrip_points.
  destruct (lstrip_points (rev cs)) as [|x rest] eqn:Hl; [done|].
  cbn [rev]. rewrite last_snoc. intros [= <-]. by eapply lstrip_points_head.
Qed.
